(** * macos-trust: rule engine, scan orchestrator and baseline differ

    A shallow embedding of [macos_trust/models.py], [vendors.py],
    [context.py], [config.py], [rules.py], [engine.py] and [baseline.py].

    Conventions of the embedding:
    - a Python dict produced by a collector or a scanner is a record whose
      fields are [option]s: [None] is a missing key, so [d.get(k, dflt)] is
      [default dflt (field d)];
    - a collector result that is [None] in Python is [None : option _];
    - Python strings are [String.string] (ASCII); [str.lower] is ASCII
      lower-casing;
    - I/O performed by [AppContext] (file existence, [os.stat], the clock,
      [brew list]) reads an explicit [Host] state. *)

From Stdlib Require Import String Ascii ZArith Bool List Sorted.
From stdpp Require Import base gmap strings list pretty.
Import ListNotations.

Local Open Scope string_scope.

(* ------------------------------------------------------------------ *)
(** ** Python helpers *)

Definition default {A} (d : A) (o : option A) : A :=
  match o with Some x => x | None => d end.

(** [a or b] for a string-valued [a] that may be missing ([None]) or empty. *)
Definition py_or (a : option string) (b : string) : string :=
  match a with
  | Some s => if String.eqb s "" then b else s
  | None => b
  end.

Definition str_truthy (s : string) : bool := negb (String.eqb s "").

Definition ascii_lower (c : ascii) : ascii :=
  let n := nat_of_ascii c in
  if (65 <=? n)%nat && (n <=? 90)%nat then ascii_of_nat (n + 32) else c.

(** [str.lower] on ASCII strings. *)
Fixpoint str_lower (s : string) : string :=
  match s with
  | EmptyString => EmptyString
  | String c s' => String (ascii_lower c) (str_lower s')
  end.

(** [s.startswith(p)]. *)
Definition startswith (s p : string) : bool := String.prefix p s.

(** [p in s] for strings. *)
Definition str_contains (p s : string) : bool :=
  match String.index 0 p s with Some _ => true | None => false end.

(** [s.endswith(p)]. *)
Definition endswith (s p : string) : bool :=
  let n := String.length s in
  let m := String.length p in
  (m <=? n)%nat && String.eqb (String.substring (n - m) m s) p.

(** [s[:n]]. *)
Definition str_take (n : nat) (s : string) : string := String.substring 0 n s.

(** [", ".join(l)]. *)
Definition join (sep : string) (l : list string) : string := String.concat sep l.

(** [x in l] for a list of strings. *)
Definition str_in (x : string) (l : list string) : bool :=
  existsb (String.eqb x) l.

(* ------------------------------------------------------------------ *)
(** ** models.py *)

Inductive Risk := HIGH | MED | LOW | INFO.

Definition risk_eqb (a b : Risk) : bool :=
  match a, b with
  | HIGH, HIGH | MED, MED | LOW, LOW | INFO, INFO => true
  | _, _ => false
  end.

(** [Risk.value]. *)
Definition risk_value (r : Risk) : string :=
  match r with HIGH => "HIGH" | MED => "MED" | LOW => "LOW" | INFO => "INFO" end.

(** The [order] table inside [Risk.__lt__]. *)
Definition risk_order (r : Risk) : nat :=
  match r with HIGH => 0 | MED => 1 | LOW => 2 | INFO => 3 end.

(** [Risk.__lt__]: [order[self] > order[other]] ("reversed for HIGH > MED"). *)
Definition risk_lt (a b : Risk) : bool := (risk_order b <? risk_order a)%nat.

Record Finding := mkFinding {
  f_id : string;
  f_category : string;
  f_risk : Risk;
  f_title : string;
  f_details : string;
  f_path : option string;
  f_evidence : list (string * string);
  f_recommendation : string
}.

(** Python's [<] on the sort key [(f.risk, f.title)]: tuple comparison finds
    the first position whose components differ under [==] and compares them
    with [<] (here [Risk.__lt__] and code-point order on [str]); equal tuples
    are not [<]. *)
Definition key_lt (f g : Finding) : bool :=
  if risk_eqb (f_risk f) (f_risk g)
  then String.ltb (f_title f) (f_title g)
  else risk_lt (f_risk f) (f_risk g).

(** [sorted(xs, key=...)]: Python's sort is stable and uses only [<]; for a
    strict weak order every stable sort returns the same list, so the
    stable insertion sort below computes what Timsort returns.  Each element
    goes in front of the first element it is strictly less than. *)
Fixpoint insert_stable (x : Finding) (l : list Finding) : list Finding :=
  match l with
  | [] => [x]
  | y :: ys => if key_lt x y then x :: y :: ys else y :: insert_stable x ys
  end.

Definition sorted_by_key (l : list Finding) : list Finding :=
  fold_left (fun acc x => insert_stable x acc) l [].

Record HostInfo := mkHostInfo {
  os_version : string; build : string; arch : string; hostname : string
}.

Record ScanReport := mkScanReport {
  schema_version : string;
  host : HostInfo;
  timestamp : string;
  findings : list Finding
}.

(** [ScanReport.sorted_findings]. *)
Definition sorted_findings (r : ScanReport) : list Finding :=
  sorted_by_key (findings r).

(** [Risk.__le__], [Risk.__gt__] and [Risk.__ge__], written with [<] as
    the source writes them. *)
Definition risk_le (a b : Risk) : bool := risk_lt a b || risk_eqb a b.

Definition risk_gt (a b : Risk) : bool := negb (risk_le a b).

Definition risk_ge (a b : Risk) : bool := negb (risk_lt a b).

(** [ScanReport.get_findings_by_risk]: [[f for f in self.findings if f.risk <= min_risk]]. *)
Definition get_findings_by_risk (r : ScanReport) (min_risk : Risk) : list Finding :=
  List.filter (fun f => risk_le (f_risk f) min_risk) (findings r).

(** [ScanReport.summary]: the dict [{risk.value: 0 for risk in Risk}], then
    [summary[finding.risk.value] += 1] for each finding.  Every
    [risk.value] is a key of the initial dict, so the [None] branch (a
    [KeyError] in Python) is never taken. *)
Definition summary (r : ScanReport) : gmap string nat :=
  fold_left (fun s f =>
               let k := risk_value (f_risk f) in
               match s !! k with Some n => <[k := S n]> s | None => s end)
            (findings r)
            (list_to_map (map (fun risk => (risk_value risk, 0%nat)) [HIGH; MED; LOW; INFO])).

(* ------------------------------------------------------------------ *)
(** ** vendors.py *)

Definition KNOWN_VENDORS : list (string * string) := [
  ("9BNSXJN65R", "Docker Inc");
  ("UBF8T346G9", "Microsoft Corporation");
  ("BJ4HAAB9B3", "Zoom Video Communications");
  ("MXGJJ98X76", "Valve Corporation");
  ("EQHXZ8M8AV", "Google LLC");
  ("6N38VWS5BX", "Mozilla Corporation");
  ("43AQ936H96", "JetBrains s.r.o.");
  ("4XRHD3P41Q", "Slack Technologies");
  ("2E337YPCZY", "Dropbox Inc");
  ("5E9KR5BC68", "Discord Inc");
  ("MXCNVGBRW2", "Homebrew");
  ("Apple", "Apple Inc");
  ("0000000000", "Apple Inc");
  ("PKV8ZPD836", "GPGTools GmbH");
  ("PXPBC95EF8", "Oracle America Inc")
].

Definition SYSTEM_HELPER_PATTERNS : list string :=
  ["PrivilegedHelperTools"; "XPCServices"; "Frameworks/"; ".framework/";
   "/Contents/Library/"].

Definition USER_WRITABLE_PATHS : list string :=
  ["/Users/"; "/tmp/"; "/var/tmp/"; "/private/tmp/"; "~/"].

Definition is_known_vendor (team_id : string) : bool :=
  existsb (fun kv => String.eqb (fst kv) team_id) KNOWN_VENDORS.

Definition get_vendor_name (team_id : string) : string :=
  match find (fun kv => String.eqb (fst kv) team_id) KNOWN_VENDORS with
  | Some kv => snd kv
  | None => team_id
  end.

Definition is_system_helper_path (path : string) : bool :=
  if negb (str_truthy path) then false
  else existsb (fun pattern => str_contains pattern path) SYSTEM_HELPER_PATTERNS.

(** [is_user_writable_path]: the path is lower-cased, the prefixes are not. *)
Definition is_user_writable_path (path : string) : bool :=
  if negb (str_truthy path) then false
  else
    let path_lower := str_lower path in
    existsb (fun prefix => startswith path_lower prefix) USER_WRITABLE_PATHS.

(* ------------------------------------------------------------------ *)
(** ** config.py *)

Record Config := mkConfig {
  min_risk : string;
  exclude_vendors : list string;
  trusted_vendors : list string;
  ignore_findings : list string;
  ignore_patterns : list string;
  baseline_file : string;
  trust_homebrew_cask : bool;
  trust_app_store : bool;
  trust_old_apps : bool;
  old_app_days : Z
}.

(** [Config()] with its dataclass defaults. *)
Definition default_config : Config := {|
  min_risk := "MED"; exclude_vendors := []; trusted_vendors := [];
  ignore_findings := []; ignore_patterns := [];
  baseline_file := "~/.macos-trust/baseline.json";
  trust_homebrew_cask := false; trust_app_store := true;
  trust_old_apps := false; old_app_days := 30%Z
|}.

(* ------------------------------------------------------------------ *)
(** ** context.py *)

(** The host state that [AppContext] reads: whether a path exists, the
    [st_mtime] of a path (in whole seconds; [None] when [os.stat] raises),
    the current time [datetime.now()], and the class-level cache
    [AppContext._homebrew_apps] (the output of [brew list --cask], computed
    on first use and then kept for the whole process). *)
Record Host := mkHost {
  h_exists : string -> bool;
  h_mtime : string -> option Z;
  h_now : Z;
  h_homebrew_apps : list string
}.

Record AppContext := mkAppContext {
  ctx_app_path : string;
  ctx_is_app_store : bool;
  ctx_is_homebrew : bool;
  ctx_age_days : Z
}.

(** [s.split(sep)[0]]: the part before the first occurrence of [sep]. *)
Definition split_first (sep s : string) : string :=
  match String.index 0 sep s with
  | Some n => String.substring 0 n s
  | None => s
  end.

(** [s.split('/')[-1]]: the part after the last ['/']. *)
Fixpoint last_segment_aux (s acc : string) : string :=
  match s with
  | EmptyString => acc
  | String c s' =>
      if Ascii.eqb c "/"%char then last_segment_aux s' ""
      else last_segment_aux s' (acc ++ String c EmptyString)
  end.

Definition last_segment (s : string) : string := last_segment_aux s "".

(** [s.replace(old, "")] with [old] of length 4 (".app"). *)
Fixpoint remove_all (old s : string) (fuel : nat) : string :=
  match fuel with
  | O => s
  | S fuel' =>
      match String.index 0 old s with
      | Some n =>
          String.substring 0 n s ++
          remove_all old (String.substring (n + String.length old)
                            (String.length s) s) fuel'
      | None => s
      end
  end.

Definition py_remove (old s : string) : string :=
  remove_all old s (String.length s).

Definition _check_app_store (h : Host) (app_path : string) : bool :=
  if negb (str_truthy app_path) then false
  else
    let bundle :=
      if endswith app_path ".app" then Some app_path
      else if str_contains ".app/" app_path
      then Some (split_first ".app/" app_path ++ ".app")
      else None in
    match bundle with
    | Some app_bundle => h_exists h (app_bundle ++ "/Contents/_MASReceipt/receipt")
    | None => false
    end.

Definition _extract_app_name (app_path : string) : string :=
  if str_contains ".app" app_path then
    let app_with_ext :=
      if endswith app_path ".app" then last_segment app_path
      else last_segment (split_first ".app/" app_path) ++ ".app" in
    str_lower (py_remove ".app" app_with_ext)
  else "".

Definition _check_homebrew (h : Host) (app_path : string) : bool :=
  if negb (str_truthy app_path) then false
  else str_in (_extract_app_name app_path) (h_homebrew_apps h).

(** [(datetime.now() - mtime).days]: floor division by a day. *)
Definition _get_age_days (h : Host) (app_path : string) : Z :=
  if negb (str_truthy app_path) then 0%Z
  else match h_mtime h app_path with
       | Some mtime => ((h_now h - mtime) / 86400)%Z
       | None => 0%Z
       end.

(** [AppContext(app_path)]. *)
Definition AppContext_init (h : Host) (app_path : string) : AppContext := {|
  ctx_app_path := app_path;
  ctx_is_app_store := _check_app_store h app_path;
  ctx_is_homebrew := _check_homebrew h app_path;
  ctx_age_days := _get_age_days h app_path
|}.

(** [quarantine_value.split(';')]. *)
Fixpoint split_semicolon_aux (s acc : string) : list string :=
  match s with
  | EmptyString => [acc]
  | String c s' =>
      if Ascii.eqb c ";"%char then acc :: split_semicolon_aux s' ""
      else split_semicolon_aux s' (acc ++ String c EmptyString)
  end.

Definition split_semicolon (s : string) : list string := split_semicolon_aux s "".

(** [s.replace('\\x20', ' ')]: the four characters backslash, x, 2, 0. *)
Definition esc_space : string :=
  String "092"%char (String "x"%char (String "2"%char (String "0"%char EmptyString))).

Fixpoint replace_all (old new s : string) (fuel : nat) : string :=
  match fuel with
  | O => s
  | S fuel' =>
      match String.index 0 old s with
      | Some n =>
          String.substring 0 n s ++ new ++
          replace_all old new (String.substring (n + String.length old)
                                 (String.length s) s) fuel'
      | None => s
      end
  end.

Definition parse_quarantine_source (quarantine_value : string) : option string :=
  if negb (str_truthy quarantine_value) then None
  else
    match split_semicolon quarantine_value with
    | _ :: _ :: src :: _ => Some (replace_all esc_space " " src (String.length src))
    | _ => None
    end.

Definition is_homebrew_quarantine (quarantine_value : string) : bool :=
  match parse_quarantine_source quarantine_value with
  | Some source => str_contains "homebrew" (str_lower source)
  | None => false
  end.

Definition is_browser_quarantine (quarantine_value : string) : bool :=
  match parse_quarantine_source quarantine_value with
  | Some source =>
      if negb (str_truthy source) then false
      else
        let source_lower := str_lower source in
        let browsers := ["safari"; "chrome"; "firefox"; "edge"; "brave"; "opera"] in
        existsb (fun browser => str_contains browser source_lower) browsers
  | None => false
  end.

(* ------------------------------------------------------------------ *)
(** ** Records read by the rules *)

(** An artifact record, as produced by [scan_applications] (keys [name],
    [bundle_id], [exec_path], [app_path]) or by [scan_launchd] (keys
    [label], [program], [plist_path], [scope], [run_at_load]).  The finding
    constructors of [rules.py] read either kind of dict, so one record
    carries every key, [None] when absent. *)
Record Artifact := mkArtifact {
  a_name : option string;
  a_bundle_id : option string;
  a_exec_path : option string;
  a_app_path : option string;
  a_label : option string;
  a_program : option string;
  a_plist_path : option string;
  a_scope : option string;
  a_run_at_load : option bool
}.

(** [codesign_verify] result. *)
Record CodesignRes := mkCodesign {
  cs_status : option string; cs_team_id : option string; cs_raw : option string
}.

(** [spctl_assess] result. *)
Record SpctlRes := mkSpctl {
  sp_status : option string; sp_source : option string; sp_raw : option string
}.

(** [get_quarantine] result. *)
Record QuarRes := mkQuar {
  q_is_quarantined : option string; q_value : option string
}.

(** [get_entitlements] result; [ent_count] is [str(result.get("count", 0))]
    when the key is present. *)
Record EntRes := mkEnt {
  ent_status : option string;
  ent_high_risk : option (list string);
  ent_sensitive : option (list string);
  ent_count : option string
}.

Definition opt_eqb (o : option string) (s : string) : bool :=
  match o with Some x => String.eqb x s | None => false end.

(* ------------------------------------------------------------------ *)
(** ** rules.py: finding constructors for apps and persistence items *)

Definition item_path (app : Artifact) : string :=
  py_or (a_exec_path app) (py_or (a_app_path app) (default "" (a_plist_path app))).

Definition item_name (app : Artifact) : string :=
  py_or (a_name app) (default "Unknown" (a_label app)).

Definition _create_codesign_fail_finding (app : Artifact) (codesign_result : CodesignRes)
    (finding_id category : string) (risk : Risk) (team_id : string) : Finding :=
  let path := item_path app in
  let name := item_name app in
  let recommendation :=
    if str_truthy team_id && is_known_vendor team_id then
      let vendor_name := get_vendor_name team_id in
      "This item is signed by " ++ vendor_name ++ " (Team ID: " ++ team_id ++
      "), but the signature is invalid. " ++
      "This could indicate corruption or tampering. Reinstall from official " ++
      vendor_name ++ " sources."
    else "Verify the source of this item. Remove if untrusted. Re-download from official sources if legitimate." in
  {| f_id := finding_id;
     f_category := category;
     f_risk := risk;
     f_title := "Invalid code signature: " ++ name;
     f_details := "Code signature verification failed for " ++ name ++ ". " ++
                  "This could indicate tampering, corruption, or an unsigned binary.";
     f_path := Some path;
     f_evidence := [("codesign_status", default "" (cs_status codesign_result));
                    ("codesign_team_id", team_id);
                    ("codesign_raw", str_take 200 (default "" (cs_raw codesign_result)))];
     f_recommendation := recommendation |}.

Definition _create_spctl_rejected_finding (app : Artifact) (spctl_result : SpctlRes)
    (finding_id category : string) (risk : Risk) (team_id : string) : Finding :=
  let path := item_path app in
  let name := item_name app in
  let recommendation :=
    if str_truthy team_id && is_known_vendor team_id then
      let vendor_name := get_vendor_name team_id in
      if is_system_helper_path path then
        "This is a " ++ vendor_name ++ " system helper (Team ID: " ++ team_id ++ "). " ++
        "Helper utilities commonly fail Gatekeeper checks but may be safe if part of a verified " ++
        vendor_name ++ " installation. " ++
        "Verify the main " ++ vendor_name ++ " application is properly installed and up to date."
      else
        "This item is signed by " ++ vendor_name ++ " (Team ID: " ++ team_id ++
        ") but rejected by Gatekeeper. " ++
        "This may be a helper utility or older version. Verify with official " ++
        vendor_name ++ " documentation."
    else
      "Do not run this item unless you explicitly trust the source. " ++
      "Verify authenticity and consider obtaining from App Store or notarized sources." in
  {| f_id := finding_id;
     f_category := category;
     f_risk := risk;
     f_title := "Gatekeeper blocked: " ++ name;
     f_details := "macOS Gatekeeper has rejected " ++ name ++ ". " ++
                  "This item does not meet Apple's security requirements for execution.";
     f_path := Some path;
     f_evidence := [("spctl_status", default "" (sp_status spctl_result));
                    ("spctl_source", default "" (sp_source spctl_result));
                    ("spctl_team_id", team_id);
                    ("spctl_raw", str_take 200 (default "" (sp_raw spctl_result)))];
     f_recommendation := recommendation |}.

Definition _create_user_writable_daemon_finding (launchd_item : Artifact)
    (finding_id : string) : Finding :=
  let program := default "" (a_program launchd_item) in
  let label := default "Unknown" (a_label launchd_item) in
  let plist_path := default "" (a_plist_path launchd_item) in
  {| f_id := finding_id;
     f_category := "persistence";
     f_risk := HIGH;
     f_title := "System daemon uses user-writable path: " ++ label;
     f_details := "System daemon '" ++ label ++
                  "' executes a program from a user-writable location (" ++ program ++ "). " ++
                  "This is a privilege escalation risk, as the daemon runs with elevated privileges " ++
                  "but its binary could be modified by unprivileged users.";
     f_path := Some plist_path;
     f_evidence := [("scope", "daemon"); ("program", program); ("label", label)];
     f_recommendation :=
       "Move the program to a system-protected location (e.g., /usr/local/bin) with appropriate " ++
       "permissions, or remove this launch daemon if it's not needed." |}.

Definition _create_quarantined_persistence_finding (launchd_item : Artifact)
    (quarantine_result : QuarRes) (finding_id : string) (run_at_load : bool) : Finding :=
  let label := default "Unknown" (a_label launchd_item) in
  let program := default "" (a_program launchd_item) in
  let plist_path := default "" (a_plist_path launchd_item) in
  let scope := default "unknown" (a_scope launchd_item) in
  let '(risk, title, details, recommendation) :=
    if run_at_load then
      (MED, "Quarantined persistence item (auto-run): " ++ label,
       "Launch " ++ scope ++ " '" ++ label ++
       "' has the quarantine attribute set and is configured to run at load. " ++
       "Quarantined items are typically downloads that haven't been explicitly approved by the user.",
       "Review this persistence item. If legitimate, remove the quarantine attribute. " ++
       "If untrusted, remove the launch agent/daemon entirely.")
    else
      (LOW, "Quarantined persistence item: " ++ label,
       "Launch " ++ scope ++ " '" ++ label ++
       "' has the quarantine attribute set but is not configured for auto-start. " ++
       "This is typically from a downloaded item that hasn't been user-approved yet.",
       "Review this item. Quarantine attributes on persistence items without RunAtLoad are lower risk " ++
       "since they don't auto-execute. Remove the quarantine if legitimate or delete if unwanted.") in
  {| f_id := finding_id;
     f_category := "persistence";
     f_risk := risk;
     f_title := title;
     f_details := details;
     f_path := Some plist_path;
     f_evidence := [("scope", scope); ("program", program); ("label", label);
                    ("quarantine_value", str_take 100 (default "" (q_value quarantine_result)));
                    ("run_at_load", if run_at_load then "true" else "false")];
     f_recommendation := recommendation |}.

(* ------------------------------------------------------------------ *)
(** ** rules.py: finding constructors for apps *)

Definition app_path_of (app : Artifact) : string :=
  py_or (a_exec_path app) (default "" (a_app_path app)).

Definition _create_quarantined_app_finding (app : Artifact) (quarantine_result : QuarRes)
    (finding_id : string) (quarantine_source : option string) : Finding :=
  let name := default "Unknown" (a_name app) in
  let path := app_path_of app in
  let source_truthy := match quarantine_source with Some s => str_truthy s | None => false end in
  let recommendation :=
    match quarantine_source with
    | Some s =>
        if str_truthy s then
          "This app was downloaded via " ++ s ++ ". " ++
          "If it's legitimate software you intentionally downloaded, " ++
          "you can remove the quarantine attribute by running it or using: xattr -d com.apple.quarantine"
        else
          "Review this application. If it's legitimate software you downloaded, " ++
          "you can remove the quarantine attribute by running it or using: xattr -d com.apple.quarantine"
    | None =>
        "Review this application. If it's legitimate software you downloaded, " ++
        "you can remove the quarantine attribute by running it or using: xattr -d com.apple.quarantine"
    end in
  let evidence :=
    (("quarantine_value", str_take 100 (default "" (q_value quarantine_result))) ::
     (if source_truthy then [("quarantine_source", default "" quarantine_source)] else [])) in
  {| f_id := finding_id;
     f_category := "app";
     f_risk := LOW;
     f_title := "Quarantined application: " ++ name;
     f_details := "Application '" ++ name ++ "' has the quarantine attribute set. This typically indicates " ++
                  "it was downloaded and hasn't been explicitly approved for execution yet.";
     f_path := Some path;
     f_evidence := evidence;
     f_recommendation := recommendation |}.

Definition _create_verified_app_finding (app : Artifact) (codesign_result : CodesignRes)
    (spctl_result : SpctlRes) (finding_id team_id : string) : Finding :=
  let name := default "Unknown" (a_name app) in
  let path := app_path_of app in
  let vendor_name := if str_truthy team_id then get_vendor_name team_id else "Unknown" in
  {| f_id := finding_id;
     f_category := "app";
     f_risk := INFO;
     f_title := "Verified application: " ++ name;
     f_details := "Application '" ++ name ++ "' is properly signed by " ++ vendor_name ++
                  " and passes all " ++
                  "macOS security requirements including Gatekeeper.";
     f_path := Some path;
     f_evidence := [("codesign_status", "ok"); ("spctl_status", "accepted");
                    ("team_id", team_id); ("vendor", vendor_name)];
     f_recommendation := "This application is fully verified and trusted. No action needed." |}.

Definition _create_high_risk_entitlements_finding (app : Artifact) (entitlements_result : EntRes)
    (finding_id : string) (risk : Risk) (team_id : string) : Finding :=
  let path := app_path_of app in
  let name := default "Unknown" (a_name app) in
  let high_risk_ents := default [] (ent_high_risk entitlements_result) in
  let sensitive_ents := default [] (ent_sensitive entitlements_result) in
  let recommendation :=
    if str_truthy team_id && is_known_vendor team_id then
      let vendor_name := get_vendor_name team_id in
      "This application is from " ++ vendor_name ++ " (Team ID: " ++ team_id ++
      ") and has high-risk entitlements. " ++
      "While known vendors may legitimately need these permissions, verify the application is up to date " ++
      "and obtained from official " ++ vendor_name ++ " sources."
    else
      "Review whether this application needs these high-risk entitlements. " ++
      "These permissions can be exploited for code injection, sandbox escape, or system compromise. " ++
      "Remove if the application is untrusted or no longer needed." in
  let high_risk_list := join ", " high_risk_ents in
  {| f_id := finding_id;
     f_category := "app";
     f_risk := risk;
     f_title := "High-risk entitlements: " ++ name;
     f_details := name ++ " has high-risk code signing entitlements: " ++ high_risk_list ++ ". " ++
                  "These permissions can be exploited to bypass security controls, inject code, or escape sandboxing.";
     f_path := Some path;
     f_evidence := [("high_risk_entitlements", high_risk_list);
                    ("sensitive_entitlements", join ", " sensitive_ents);
                    ("entitlements_count", default "0" (ent_count entitlements_result));
                    ("codesign_team_id", team_id)];
     f_recommendation := recommendation |}.

Definition _create_sensitive_entitlements_finding (app : Artifact) (entitlements_result : EntRes)
    (finding_id team_id : string) : Finding :=
  let path := app_path_of app in
  let name := default "Unknown" (a_name app) in
  let sensitive_ents := default [] (ent_sensitive entitlements_result) in
  let high_risk_ents := default [] (ent_high_risk entitlements_result) in
  let non_high_risk_sensitive := List.filter (fun e => negb (str_in e high_risk_ents)) sensitive_ents in
  let sensitive_list := join ", " non_high_risk_sensitive in
  let recommendation :=
    if str_truthy team_id && is_known_vendor team_id then
      let vendor_name := get_vendor_name team_id in
      "This application from " ++ vendor_name ++ " (Team ID: " ++ team_id ++ ") has sensitive permissions. " ++
      "This is informational - many legitimate applications need camera, microphone, or contact access. " ++
      "Verify you obtained this from official " ++ vendor_name ++ " sources."
    else
      "Review whether this application needs these sensitive permissions. " ++
      "Ensure the application is from a trusted source and you understand why it needs these capabilities." in
  {| f_id := finding_id;
     f_category := "app";
     f_risk := INFO;
     f_title := "Sensitive permissions: " ++ name;
     f_details := name ++ " has requested sensitive system permissions: " ++ sensitive_list ++ ". " ++
                  "While many legitimate applications need these permissions, you should verify they're necessary.";
     f_path := Some path;
     f_evidence := [("sensitive_entitlements", sensitive_list);
                    ("entitlements_count", default "0" (ent_count entitlements_result));
                    ("codesign_team_id", team_id)];
     f_recommendation := recommendation |}.

(* ------------------------------------------------------------------ *)
(** ** rules.py: [analyze_app] and [analyze_launchd] *)

Definition team_id_of (codesign_result : option CodesignRes) : string :=
  match codesign_result with Some c => default "" (cs_team_id c) | None => "" end.

Definition is_signed_of (codesign_result : option CodesignRes) : bool :=
  match codesign_result with Some c => opt_eqb (cs_status c) "ok" | None => false end.

(** [known_vendor] after the [config.trusted_vendors] override. *)
Definition known_vendor_of (config : option Config) (team_id : string) : bool :=
  let known_vendor := if str_truthy team_id then is_known_vendor team_id else false in
  match config with
  | Some cfg => if str_truthy team_id && str_in team_id (trusted_vendors cfg) then true else known_vendor
  | None => known_vendor
  end.

Definition homebrew_trusted (config : option Config) (quarantine_value : string) : bool :=
  match config with
  | Some cfg => trust_homebrew_cask cfg && is_homebrew_quarantine quarantine_value
  | None => false
  end.

Definition analyze_app (h : Host) (app : Artifact)
    (codesign_result : option CodesignRes) (spctl_result : option SpctlRes)
    (quarantine_result : option QuarRes) (entitlements_result : option EntRes)
    (config : option Config) : list Finding :=
  let app_id_base := py_or (a_bundle_id app) (default "unknown" (a_name app)) in
  let path := app_path_of app in
  let team_id := team_id_of codesign_result in
  let is_signed := is_signed_of codesign_result in
  let known_vendor := known_vendor_of config team_id in
  let app_context := if str_truthy path then Some (AppContext_init h path) else None in
  (* Rule 1: Invalid code signature *)
  let rule1 :=
    match codesign_result with
    | Some cs =>
        if opt_eqb (cs_status cs) "fail" then
          let risk := if known_vendor then MED else HIGH in
          let risk :=
            match app_context with
            | Some ctx =>
                if ctx_is_app_store ctx then MED
                else match config with
                     | Some cfg =>
                         if trust_old_apps cfg && (old_app_days cfg <=? ctx_age_days ctx)%Z
                         then LOW else risk
                     | None => risk
                     end
            | None => risk
            end in
          [_create_codesign_fail_finding app cs ("app:" ++ app_id_base ++ ":codesign_fail")
             "app" risk team_id]
        else []
    | None => []
    end in
  (* Rule 2: Gatekeeper rejected *)
  let rule2 :=
    match spctl_result with
    | Some sp =>
        if opt_eqb (sp_status sp) "rejected" then
          let risk := if is_signed && known_vendor then MED else HIGH in
          let risk :=
            match app_context with
            | Some ctx => if ctx_is_app_store ctx then MED else risk
            | None => risk
            end in
          [_create_spctl_rejected_finding app sp ("app:" ++ app_id_base ++ ":spctl_rejected")
             "app" risk team_id]
        else []
    | None => []
    end in
  (* Rule 3: Quarantined *)
  let rule3 :=
    match quarantine_result with
    | Some q =>
        if opt_eqb (q_is_quarantined q) "true" then
          let quarantine_value := default "" (q_value q) in
          if homebrew_trusted config quarantine_value then []
          else [_create_quarantined_app_finding app q ("app:" ++ app_id_base ++ ":quarantined")
                  (parse_quarantine_source quarantine_value)]
        else []
    | None => []
    end in
  (* Rule 4: Fully verified by known vendor *)
  let rule4 :=
    match codesign_result, spctl_result with
    | Some cs, Some sp =>
        if is_signed && known_vendor && opt_eqb (sp_status sp) "accepted"
        then [_create_verified_app_finding app cs sp ("app:" ++ app_id_base ++ ":verified") team_id]
        else []
    | _, _ => []
    end in
  (* Rule 5: High-risk entitlements *)
  let rule5 :=
    match entitlements_result with
    | Some ent =>
        if opt_eqb (ent_status ent) "ok" then
          match default [] (ent_high_risk ent) with
          | [] => []
          | _ :: _ =>
              let risk := if is_signed && known_vendor then MED
                          else if is_signed then MED else HIGH in
              [_create_high_risk_entitlements_finding app ent
                 ("app:" ++ app_id_base ++ ":high_risk_entitlements") risk team_id]
          end
        else []
    | None => []
    end in
  (* Rule 6: Sensitive entitlements *)
  let rule6 :=
    match entitlements_result with
    | Some ent =>
        if opt_eqb (ent_status ent) "ok" then
          let sensitive_ents := default [] (ent_sensitive ent) in
          let high_risk_ents := default [] (ent_high_risk ent) in
          let non_high_risk_sensitive :=
            List.filter (fun e => negb (str_in e high_risk_ents)) sensitive_ents in
          if (3 <=? length non_high_risk_sensitive)%nat
          then [_create_sensitive_entitlements_finding app ent
                  ("app:" ++ app_id_base ++ ":sensitive_entitlements") team_id]
          else []
        else []
    | None => []
    end in
  (rule1 ++ rule2 ++ rule3 ++ rule4 ++ rule5 ++ rule6)%list.

Definition analyze_launchd (launchd_item : Artifact)
    (codesign_result : option CodesignRes) (spctl_result : option SpctlRes)
    (quarantine_result : option QuarRes) (config : option Config) : list Finding :=
  let scope := default "unknown" (a_scope launchd_item) in
  let label := default "unknown" (a_label launchd_item) in
  let persistence_id_base := "persistence:" ++ scope ++ ":" ++ label in
  let program := default "" (a_program launchd_item) in
  let team_id := team_id_of codesign_result in
  let is_signed := is_signed_of codesign_result in
  let known_vendor := known_vendor_of config team_id in
  let is_helper := is_system_helper_path program in
  (* Rule 1: Invalid code signature *)
  let rule1 :=
    match codesign_result with
    | Some cs =>
        if opt_eqb (cs_status cs) "fail" then
          let risk := if known_vendor then MED else HIGH in
          [_create_codesign_fail_finding launchd_item cs
             (persistence_id_base ++ ":codesign_fail") "persistence" risk team_id]
        else []
    | None => []
    end in
  (* Rule 2: Gatekeeper rejected *)
  let rule2 :=
    match spctl_result with
    | Some sp =>
        if opt_eqb (sp_status sp) "rejected" then
          let risk := if is_signed && known_vendor && is_helper then MED
                      else if is_signed && known_vendor then MED else HIGH in
          [_create_spctl_rejected_finding launchd_item sp
             (persistence_id_base ++ ":spctl_rejected") "persistence" risk team_id]
        else []
    | None => []
    end in
  (* Rule 3: Daemon with user-writable path *)
  let rule3 :=
    if String.eqb scope "daemon" && is_user_writable_path program
    then [_create_user_writable_daemon_finding launchd_item (persistence_id_base ++ ":user_writable")]
    else [] in
  (* Rule 4: Quarantined (+ RunAtLoad) *)
  let run_at_load := default false (a_run_at_load launchd_item) in
  let rule4 :=
    match quarantine_result with
    | Some q =>
        if opt_eqb (q_is_quarantined q) "true" then
          let quarantine_value := default "" (q_value q) in
          if homebrew_trusted config quarantine_value then []
          else if run_at_load
          then [_create_quarantined_persistence_finding launchd_item q
                  (persistence_id_base ++ ":quarantined") true]
          else [_create_quarantined_persistence_finding launchd_item q
                  (persistence_id_base ++ ":quarantined_only") false]
        else []
    | None => []
    end in
  (rule1 ++ rule2 ++ rule3 ++ rule4)%list.

(* ------------------------------------------------------------------ *)
(** ** rules.py: browser extensions *)

(** An extension record from [scan_browser_extensions]. *)
Record Extension := mkExtension {
  e_browser : option string;
  e_id : option string;
  e_name : option string;
  e_manifest_path : option string;
  e_version : option string;
  e_permissions : option (list string);
  e_host_permissions : option (list string)
}.

Definition ascii_upper (c : ascii) : ascii :=
  let n := nat_of_ascii c in
  if (97 <=? n)%nat && (n <=? 122)%nat then ascii_of_nat (n - 32) else c.

(** [str.capitalize] on ASCII strings. *)
Definition str_capitalize (s : string) : string :=
  match s with
  | EmptyString => EmptyString
  | String c s' => String (ascii_upper c) (str_lower s')
  end.

(** [str(n)] for a non-negative int. *)
Definition str_nat (n : nat) : string := pretty n.

Definition SUSPICIOUS_PERMISSIONS : list (string * string) := [
  ("tabs", "Access browser tabs");
  ("history", "Access browsing history");
  ("cookies", "Access cookies");
  ("webRequest", "Intercept web requests");
  ("webRequestBlocking", "Block/modify web requests");
  ("proxy", "Control proxy settings");
  ("debugger", "Attach debugger to pages");
  ("management", "Manage other extensions");
  ("nativeMessaging", "Communicate with native apps");
  ("privacy", "Modify privacy settings");
  ("clipboardRead", "Read clipboard");
  ("clipboardWrite", "Write to clipboard");
  ("downloads", "Manage downloads");
  ("geolocation", "Access location");
  ("notifications", "Show notifications")
].

Definition HIGH_RISK_PERMISSIONS : list string :=
  ["webRequestBlocking"; "debugger"; "proxy"; "management"; "nativeMessaging"; "privacy"].

Definition suspicious_lookup (perm : string) : option string :=
  match find (fun kv => String.eqb (fst kv) perm) SUSPICIOUS_PERMISSIONS with
  | Some kv => Some (snd kv)
  | None => None
  end.

Definition _identify_suspicious_extension_permissions (permissions : list string) : list string :=
  flat_map (fun perm => match suspicious_lookup perm with Some d => [d] | None => [] end)
           permissions.

Definition _identify_high_risk_extension_permissions (permissions : list string) : list string :=
  flat_map (fun perm =>
              if str_in perm HIGH_RISK_PERMISSIONS then
                match suspicious_lookup perm with Some d => [d] | None => [perm] end
              else []) permissions.

(** [host.count("*")]. *)
Fixpoint count_star (s : string) : nat :=
  match s with
  | EmptyString => 0
  | String c s' => (if Ascii.eqb c "*"%char then 1 else 0) + count_star s'
  end.

Definition _has_broad_host_access (host_permissions : list string) : bool :=
  let broad_patterns := ["<all_urls>"; "*://*/*"; "http://*/*"; "https://*/*"] in
  existsb (fun host => str_in host broad_patterns || (2 <=? count_star host)%nat)
          host_permissions.

Definition ext_browser (extension : Extension) : string :=
  str_capitalize (default "unknown" (e_browser extension)).

Definition _create_high_risk_extension_finding (extension : Extension) (finding_id : string)
    (high_risk_perms all_perms : list string) : Finding :=
  let name := default "Unknown" (e_name extension) in
  let browser := ext_browser extension in
  let path := default "" (e_manifest_path extension) in
  let perms_list := join ", " high_risk_perms in
  {| f_id := finding_id;
     f_category := "browser_extension";
     f_risk := HIGH;
     f_title := "High-risk " ++ browser ++ " extension: " ++ name;
     f_details := browser ++ " extension '" ++ name ++ "' has high-risk permissions: " ++ perms_list ++ ". " ++
                  "These permissions can be exploited to intercept web traffic, inject malicious code, " ++
                  "or compromise your browsing security.";
     f_path := Some path;
     f_evidence := [("browser", str_lower browser); ("extension_name", name);
                    ("high_risk_permissions", perms_list);
                    ("all_permissions", join ", " all_perms);
                    ("extension_id", default "" (e_id extension))];
     f_recommendation :=
       "Review whether this extension is necessary and from a trusted source. " ++
       "Extensions with these permissions can intercept and modify all web traffic, " ++
       "inject code into pages, or weaken security settings. " ++
       "Remove if untrusted or no longer needed." |}.

Definition _create_broad_access_extension_finding (extension : Extension) (finding_id : string)
    (host_permissions : list string) : Finding :=
  let name := default "Unknown" (e_name extension) in
  let browser := ext_browser extension in
  let path := default "" (e_manifest_path extension) in
  let hosts_list := join ", " (firstn 5 host_permissions) in
  let hosts_list :=
    if (5 <? length host_permissions)%nat
    then hosts_list ++ ", ... (" ++ str_nat (length host_permissions) ++ " total)"
    else hosts_list in
  {| f_id := finding_id;
     f_category := "browser_extension";
     f_risk := MED;
     f_title := "Broad access " ++ browser ++ " extension: " ++ name;
     f_details := browser ++ " extension '" ++ name ++ "' has access to all websites or very broad URL patterns. " ++
                  "This extension can read and modify content on any page you visit.";
     f_path := Some path;
     f_evidence := [("browser", str_lower browser); ("extension_name", name);
                    ("host_permissions", hosts_list);
                    ("extension_id", default "" (e_id extension))];
     f_recommendation :=
       "Verify this extension is from a trusted source and review its privacy policy. " ++
       "Extensions with broad host access can read passwords, credit card info, and " ++
       "personal data from any website you visit." |}.

Definition _create_suspicious_extension_finding (extension : Extension) (finding_id : string)
    (suspicious_perms : list string) : Finding :=
  let name := default "Unknown" (e_name extension) in
  let browser := ext_browser extension in
  let path := default "" (e_manifest_path extension) in
  let perms_list := join ", " suspicious_perms in
  {| f_id := finding_id;
     f_category := "browser_extension";
     f_risk := MED;
     f_title := "Suspicious " ++ browser ++ " extension: " ++ name;
     f_details := browser ++ " extension '" ++ name ++ "' requests multiple sensitive permissions: " ++ perms_list ++ ". " ++
                  "The combination of these permissions could be used for tracking, data collection, or malicious activity.";
     f_path := Some path;
     f_evidence := [("browser", str_lower browser); ("extension_name", name);
                    ("suspicious_permissions", perms_list);
                    ("extension_id", default "" (e_id extension))];
     f_recommendation :=
       "Review whether this extension needs all these permissions. " ++
       "Consider alternatives with fewer permissions or remove if not essential." |}.

Definition _create_extension_info_finding (extension : Extension) (finding_id : string)
    (permissions host_permissions : list string) : Finding :=
  let name := default "Unknown" (e_name extension) in
  let browser := ext_browser extension in
  let path := default "" (e_manifest_path extension) in
  let version := default "unknown" (e_version extension) in
  let perm_count := (length permissions + length host_permissions)%nat in
  {| f_id := finding_id;
     f_category := "browser_extension";
     f_risk := INFO;
     f_title := browser ++ " extension: " ++ name;
     f_details := browser ++ " extension '" ++ name ++ "' (v" ++ version ++ ") is installed with " ++
                  str_nat perm_count ++ " permissions. " ++
                  "Browser extensions can access sensitive data and modify web pages.";
     f_path := Some path;
     f_evidence := [("browser", str_lower browser); ("extension_name", name);
                    ("version", version);
                    ("permissions", match permissions with [] => "None" | _ => join ", " permissions end);
                    ("host_permissions",
                      match host_permissions with [] => "None" | _ => join ", " (firstn 3 host_permissions) end);
                    ("extension_id", default "" (e_id extension))];
     f_recommendation :=
       "Periodically review installed browser extensions and remove those no longer needed. " ++
       "Only install extensions from trusted sources." |}.

Definition analyze_browser_extension (extension : Extension) (config : option Config) : list Finding :=
  let browser := default "unknown" (e_browser extension) in
  let ext_id := default "unknown" (e_id extension) in
  let ext_id_base := "browser_ext:" ++ browser ++ ":" ++ ext_id in
  let permissions := default [] (e_permissions extension) in
  let host_permissions := default [] (e_host_permissions extension) in
  let suspicious_perms := _identify_suspicious_extension_permissions permissions in
  let high_risk_perms := _identify_high_risk_extension_permissions permissions in
  let rule1 :=
    match high_risk_perms with
    | [] => []
    | _ :: _ => [_create_high_risk_extension_finding extension
                  (ext_id_base ++ ":high_risk_permissions") high_risk_perms permissions]
    end in
  let rule2 :=
    if _has_broad_host_access host_permissions
    then [_create_broad_access_extension_finding extension (ext_id_base ++ ":broad_access")
            host_permissions]
    else [] in
  let rule3 :=
    if (3 <=? length suspicious_perms)%nat
    then [_create_suspicious_extension_finding extension
            (ext_id_base ++ ":suspicious_permissions") suspicious_perms]
    else [] in
  let rule4 :=
    match permissions, host_permissions with
    | [], [] => []
    | _, _ => [_create_extension_info_finding extension (ext_id_base ++ ":info")
                 permissions host_permissions]
    end in
  (rule1 ++ rule2 ++ rule3 ++ rule4)%list.

(* ------------------------------------------------------------------ *)
(** ** rules.py: kernel and system extensions *)

(** A value put into an [evidence] dict before [Finding] validates it: the
    kext findings put the [loaded] flag, a [bool], beside strings. *)
Inductive PyVal := PyStr (s : string) | PyBool (b : bool).

(** The error raised by [Finding(...)] when an evidence value is refused:
    the key of that value. *)
Inductive ValidationError := EvidenceNotStr (key : string).

(** The [codesign] dict of a kext record (keys [status], [team_id],
    [message]); a missing key is [None]. *)
Record KextCodesign := mkKextCodesign {
  kc_status : option string;
  kc_team_id : option string;
  kc_message : option string
}.

(** A kext record from [scan_kexts] (keys [name], [bundle_id], [path],
    [type], [location], [loaded], [codesign]); a missing key is [None]. *)
Record Kext := mkKext {
  k_name : option string;
  k_bundle_id : option string;
  k_path : option string;
  k_type : option string;
  k_location : option string;
  k_loaded : option bool;
  k_codesign : option KextCodesign
}.

(** [kext.get("codesign", {}).get(key, d)]. *)
Definition kext_codesign_get (field : KextCodesign -> option string) (kext : Kext) (d : string) : string :=
  match k_codesign kext with Some c => default d (field c) | None => d end.

Definition kext_type_label (kext_type : string) : string :=
  if String.eqb kext_type "systemextension" then "System Extension" else "Kernel Extension".

Section Kexts.

(** How the [evidence: dict[str, str]] field of [Finding] takes a value:
    [Some s] when it is accepted as the string [s], [None] when validation
    refuses it (what happens to a [bool] depends on the Pydantic version
    and mode, so it is left open). *)
Variable validate_str : PyVal -> option string.

Fixpoint validate_evidence (ev : list (string * PyVal)) : ValidationError + list (string * string) :=
  match ev with
  | [] => inr []
  | (k, v) :: rest =>
      match validate_str v with
      | None => inl (EvidenceNotStr k)
      | Some sv =>
          match validate_evidence rest with
          | inl e => inl e
          | inr r => inr ((k, sv) :: r)
          end
      end
  end.

(** [Finding(id=..., category=..., ..., path=path, evidence=..., ...)]. *)
Definition kext_finding (id category : string) (risk : Risk) (title details path : string)
    (evidence : list (string * PyVal)) (recommendation : string) : ValidationError + Finding :=
  match validate_evidence evidence with
  | inl e => inl e
  | inr ev =>
      inr {| f_id := id; f_category := category; f_risk := risk; f_title := title;
             f_details := details; f_path := Some path; f_evidence := ev;
             f_recommendation := recommendation |}
  end.

Definition _create_unsigned_kext_finding (kext : Kext) (finding_id_base : string)
    (known_vendor config_trusted_vendor : bool) : ValidationError + Finding :=
  let name := default "Unknown" (k_name kext) in
  let path := default "" (k_path kext) in
  let kext_type := default "kext" (k_type kext) in
  let loaded := default false (k_loaded kext) in
  let type_label := kext_type_label kext_type in
  let loaded_status := if loaded then "loaded" else "not loaded" in
  kext_finding (finding_id_base ++ ":unsigned") "kext" HIGH
    ("Unsigned " ++ type_label ++ ": " ++ name)
    (type_label ++ " '" ++ name ++ "' is not signed with a valid code signature. " ++
     "This extension is currently " ++ loaded_status ++ ". " ++
     "Unsigned kernel extensions have full system access and pose significant security risks.")
    path
    [("codesign_status", PyStr "unsigned"); ("type", PyStr kext_type); ("loaded", PyBool loaded)]
    ("Verify the source of this " ++ str_lower type_label ++ ". Unsigned kernel-level code " ++
     "is a major security risk. Only install kernel extensions from verified sources. " ++
     "Consider removing if not essential.").

Definition _create_invalid_kext_finding (kext : Kext) (finding_id_base : string)
    (known_vendor config_trusted_vendor : bool) : ValidationError + Finding :=
  let name := default "Unknown" (k_name kext) in
  let path := default "" (k_path kext) in
  let kext_type := default "kext" (k_type kext) in
  let loaded := default false (k_loaded kext) in
  let type_label := kext_type_label kext_type in
  kext_finding (finding_id_base ++ ":invalid_signature") "kext" HIGH
    ("Invalid signature: " ++ name)
    (type_label ++ " '" ++ name ++ "' has an invalid code signature. " ++
     "This could indicate tampering or corruption.")
    path
    [("codesign_status", PyStr "invalid");
     ("codesign_message", PyStr (kext_codesign_get kc_message kext ""));
     ("type", PyStr kext_type); ("loaded", PyBool loaded)]
    ("This kernel extension's signature is invalid. This is a serious security concern. " ++
     "Reinstall the parent application or driver, or remove if no longer needed.").

(** [analyze_kext]: the findings, or the error raised while building one. *)
Definition analyze_kext (kext : Kext) (config : option Config) : ValidationError + list Finding :=
  let name := default "Unknown" (k_name kext) in
  let bundle_id := default name (k_bundle_id kext) in
  let location := default "library" (k_location kext) in
  if String.eqb location "system" then inr []
  else
    let team_id := kext_codesign_get kc_team_id kext "" in
    let known_vendor := if str_truthy team_id then is_known_vendor team_id else false in
    let config_trusted_vendor :=
      match config with
      | Some cfg => if str_truthy team_id then str_in team_id (trusted_vendors cfg) else false
      | None => false
      end in
    let finding_id_base := "kext:" ++ bundle_id in
    let codesign_status := kext_codesign_get kc_status kext "unknown" in
    if String.eqb codesign_status "unsigned" then
      match _create_unsigned_kext_finding kext finding_id_base known_vendor config_trusted_vendor with
      | inl e => inl e
      | inr f => inr [f]
      end
    else if String.eqb codesign_status "invalid" then
      match _create_invalid_kext_finding kext finding_id_base known_vendor config_trusted_vendor with
      | inl e => inl e
      | inr f => inr [f]
      end
    else inr [].

End Kexts.

(* ------------------------------------------------------------------ *)
(** ** baseline.py *)

(** One entry of the [findings] mapping of a baseline file.  A loaded file
    is arbitrary JSON, so the [risk] key may be missing: [.get('risk')]. *)
Record BaselineEntry := mkEntry {
  b_risk : option string;
  b_title : option string;
  b_path : option string;
  b_category : option string;
  b_timestamp : option string
}.

(** The JSON document written by [Baseline.save]. *)
Record BaselineData := mkBaselineData {
  bd_created_at : string;
  bd_host : HostInfo;
  bd_findings : gmap string BaselineEntry
}.

(** The baseline file on disk.  [json.dump] followed by [json.load] of a
    document made of strings, [null] and string-keyed objects gives the
    document back, so a written file is kept as the data itself. *)
Inductive BaselineFile :=
| NoFile
| Corrupt
| Stored (data : BaselineData).

(** [self.findings] of a [Baseline] object. *)
Abbreviation Baseline := (gmap string BaselineEntry).

(** [Baseline.load]: the returned flag and the new [self.findings]; on a
    missing or unreadable file [self.findings] is left as it was. *)
Definition baseline_load (file : BaselineFile) (self : Baseline) : bool * Baseline :=
  match file with
  | NoFile => (false, self)
  | Corrupt => (false, self)
  | Stored data => (true, bd_findings data)
  end.

Definition baseline_entry (report : ScanReport) (f : Finding) : BaselineEntry := {|
  b_risk := Some (risk_value (f_risk f));
  b_title := Some (f_title f);
  b_path := f_path f;
  b_category := Some (f_category f);
  b_timestamp := Some (timestamp report)
|}.

(** The dict comprehension [{finding.id: {...} for finding in report.findings}]:
    a later finding with the same id overwrites an earlier one. *)
Definition baseline_findings_of (report : ScanReport) : gmap string BaselineEntry :=
  fold_left (fun m f => <[f_id f := baseline_entry report f]> m) (findings report) ∅.

(** [Baseline.save]: the file written and the new [self.findings];
    [created_at] is [datetime.now(UTC).isoformat()], passed in. *)
Definition baseline_save (created_at : string) (report : ScanReport) : BaselineFile * Baseline :=
  let data := {| bd_created_at := created_at; bd_host := host report;
                 bd_findings := baseline_findings_of report |} in
  (Stored data, bd_findings data).

(** The per-finding test of [Baseline.filter_new_findings]. *)
Definition is_new_or_changed (self : Baseline) (f : Finding) : bool :=
  match self !! f_id f with
  | None => true
  | Some entry => negb (opt_eqb (b_risk entry) (risk_value (f_risk f)))
  end.

Fixpoint filter_loop (self : Baseline) (fs : list Finding) : list Finding :=
  match fs with
  | [] => []
  | f :: rest =>
      if is_new_or_changed self f then f :: filter_loop self rest else filter_loop self rest
  end.

Definition filter_new_findings (self : Baseline) (fs : list Finding) : list Finding :=
  if decide (self = ∅) then fs else filter_loop self fs.

(** [Baseline.is_in_baseline] ([finding_id in self.findings]) and
    [Baseline.get_baseline_count] ([len(self.findings)]). *)
Definition is_in_baseline (self : Baseline) (finding_id : string) : bool :=
  bool_decide (is_Some (self !! finding_id)).

Definition get_baseline_count (self : Baseline) : nat := size self.

(* ------------------------------------------------------------------ *)
(** ** engine.py *)

(** The three collectors, each at an executable path; [None] when the
    collector raised (the engine then passes [None] to the rules). *)
Record Collectors := mkCollectors {
  codesign_verify : string -> option CodesignRes;
  spctl_assess : string -> option SpctlRes;
  get_quarantine : string -> option QuarRes
}.

Inductive ScanError := RuntimeError (msg : string).

Section Engine.

(** [re.match(pattern, s)] returns a match object (true) or [None] (false). *)
Variable re_match : string -> string -> bool.

Fixpoint _apply_config_filters_loop (findings : list Finding) (config : Config) : list Finding :=
  match findings with
  | [] => []
  | finding :: rest =>
      if str_in (f_id finding) (ignore_findings config) then _apply_config_filters_loop rest config
      else if existsb (fun pattern => re_match pattern (f_id finding)) (ignore_patterns config)
      then _apply_config_filters_loop rest config
      else finding :: _apply_config_filters_loop rest config
  end.

Definition _apply_config_filters (findings : list Finding) (config : Config) : list Finding :=
  _apply_config_filters_loop findings config.

Variable h : Host.
Variable coll : Collectors.

Definition _analyze_single_app (app : Artifact) (config : option Config) : list Finding :=
  let exec_path := default "" (a_exec_path app) in
  if negb (str_truthy exec_path) then []
  else
    analyze_app h app (codesign_verify coll exec_path) (spctl_assess coll exec_path)
      (get_quarantine coll exec_path) None config.

Definition _analyze_single_launchd (item : Artifact) (config : option Config) : list Finding :=
  let program := default "" (a_program item) in
  if negb (str_truthy program) then analyze_launchd item None None None config
  else if negb (h_exists h program) then analyze_launchd item None None None config
  else
    analyze_launchd item (codesign_verify coll program) (spctl_assess coll program)
      (get_quarantine coll program) config.

(** The sequential analysers ([parallel=False]): findings in inventory order. *)
Definition _analyze_apps_sequential (apps : list Artifact) (config : option Config) : list Finding :=
  flat_map (fun app => _analyze_single_app app config) apps.

Definition _analyze_launchd_sequential (items : list Artifact) (config : option Config) : list Finding :=
  flat_map (fun item => _analyze_single_launchd item config) items.

(** [_scan_and_analyze_apps]; [scan_applications] is [None] when it raised. *)
Definition _scan_and_analyze_apps (scan_applications : option (list Artifact))
    (config : option Config) : list Finding :=
  match scan_applications with
  | None => []
  | Some [] => []
  | Some apps => _analyze_apps_sequential apps config
  end.

Definition _scan_and_analyze_launchd (scan_launchd : option (list Artifact))
    (config : option Config) : list Finding :=
  match scan_launchd with
  | None => []
  | Some [] => []
  | Some items => _analyze_launchd_sequential items config
  end.

(** [run_scan(config, parallel=False)].  [get_host_info] is [None] when it
    raised [RuntimeError]; [now] is [datetime.utcnow().isoformat()]. *)
Definition run_scan (get_host_info : option HostInfo)
    (scan_applications scan_launchd : option (list Artifact))
    (now : string) (config : option Config) : ScanError + ScanReport :=
  match get_host_info with
  | None => inl (RuntimeError "host information unavailable")
  | Some hst =>
      let all_findings := [] in
      let app_findings := _scan_and_analyze_apps scan_applications config in
      let all_findings := (all_findings ++ app_findings)%list in
      let launchd_findings := _scan_and_analyze_launchd scan_launchd config in
      let all_findings := (all_findings ++ launchd_findings)%list in
      let all_findings :=
        match config with
        | Some cfg => _apply_config_filters all_findings cfg
        | None => all_findings
        end in
      let sorted_findings := sorted_by_key all_findings in
      inr {| schema_version := "0.1"; host := hst; timestamp := now ++ "Z";
             findings := sorted_findings |}
  end.

End Engine.

(* ------------------------------------------------------------------ *)
(** ** cli.py: [scan] from the scan to the rendering *)

(** [str.upper] on ASCII strings. *)
Fixpoint str_upper (s : string) : string :=
  match s with
  | EmptyString => EmptyString
  | String c s' => String (ascii_upper c) (str_upper s')
  end.

(** [Risk[name]]: the member called [name] (the member names of [Risk] are
    its values); [None] is the [KeyError]. *)
Definition risk_of_name (name : string) : option Risk :=
  find (fun r => String.eqb (risk_value r) name) [HIGH; MED; LOW; INFO].

(** Lines 181-194: [min_risk_option] is the [--min-risk] option ([None]
    when absent); [inl 2] is [sys.exit(2)], [inr None] is "no severity
    filter". *)
Definition cli_min_risk_level (min_risk_option : option string) (verbose : bool)
    (config : Config) : nat + option Risk :=
  let given := match min_risk_option with Some m => str_truthy m | None => false end in
  if given then
    match risk_of_name (str_upper (default "" min_risk_option)) with
    | Some r => inr (Some r)
    | None => inl 2%nat
    end
  else if negb verbose then
    inr (Some (default MED (risk_of_name (str_upper (min_risk config)))))
  else inr None.

(** [d.get(k, dflt)] on an evidence dict (its keys are distinct). *)
Definition evidence_get (k : string) (d : list (string * string)) (dflt : string) : string :=
  match find (fun kv => String.eqb (fst kv) k) d with Some kv => snd kv | None => dflt end.

(** Lines 240-247: [exclude_set = set(config.exclude_vendors)]. *)
Definition exclude_vendor_filter (exclude_vendors : list string) (fs : list Finding) : list Finding :=
  match exclude_vendors with
  | [] => fs
  | _ :: _ =>
      List.filter (fun f =>
        negb (str_in (evidence_get "codesign_team_id" (f_evidence f) "") exclude_vendors) &&
        negb (str_in (evidence_get "spctl_team_id" (f_evidence f) "") exclude_vendors)) fs
  end.

(** Lines 225-247: the diff, severity and vendor filters. *)
Definition cli_filter_findings (use_diff_mode baseline_exists : bool) (baseline : Baseline)
    (min_risk_level : option Risk) (exclude_vendors : list string)
    (report_findings : list Finding) : list Finding :=
  let filtered_findings := report_findings in
  let filtered_findings :=
    if use_diff_mode && baseline_exists then filter_new_findings baseline filtered_findings
    else filtered_findings in
  let filtered_findings :=
    match min_risk_level with
    | Some m => List.filter (fun f => risk_ge (f_risk f) m) filtered_findings
    | None => filtered_findings
    end in
  exclude_vendor_filter exclude_vendors filtered_findings.

(** How [scan] ends: [Exit n] is [sys.exit(n)] before any rendering,
    [Render fs] renders a report holding the findings [fs]. *)
Inductive CliOutcome := Exit (code : nat) | Render (fs : list Finding).

(** Lines 196-247, from the baseline path on.  [file] is the baseline file
    on disk, [scan_result] what [run_scan] returned or raised, [sarif] whether
    [--sarif] was given, [save_failure] whether [baseline.save] raises:
    [None] when it succeeds, [Some file'] when it raises leaving [file'] on
    disk (the old file, or a partly written one).  The result is the
    baseline file afterwards and the outcome. *)
Definition cli_scan (file : BaselineFile) (diff_mode show_all save_baseline json sarif : bool)
    (min_risk_level : option Risk) (config : Config) (created_at : string)
    (scan_result : ScanError + ScanReport) (save_failure : option BaselineFile)
    : BaselineFile * CliOutcome :=
  let '(baseline_exists, baseline) := baseline_load file ∅ in
  let use_diff_mode := (diff_mode || baseline_exists) && negb show_all in
  match scan_result with
  | inl _ => (file, Exit 3)
  | inr report =>
      let saved :=
        if save_baseline then
          match save_failure with
          | None => inr (baseline_save created_at report)
          | Some file' => inl file'
          end
        else inr (file, baseline) in
      match saved with
      | inl file' => (file', Exit 3)
      | inr (file, baseline) =>
          if save_baseline && negb json && negb sarif then (file, Exit 0)
          else
            (file, Render (cli_filter_findings use_diff_mode baseline_exists baseline
                             min_risk_level (exclude_vendors config) (findings report)))
      end
  end.

(* ------------------------------------------------------------------ *)
(** ** output/sarif.py *)

Definition _risk_to_sarif_level (risk : Risk) : string :=
  match risk with HIGH => "error" | MED => "warning" | LOW => "note" | INFO => "note" end.

(** [s.replace(a, b)] for one-character strings [a] and [b]. *)
Fixpoint replace_char (a b : ascii) (s : string) : string :=
  match s with
  | EmptyString => EmptyString
  | String c s' => String (if Ascii.eqb c a then b else c) (replace_char a b s')
  end.

Definition _sanitize_rule_name (rule_id : string) : string :=
  replace_char "_" "-" (replace_char ":" "-" rule_id).

(** [_dedupe_rules]: a dict kept in insertion order, as an association list. *)
Definition _dedupe_rules (report_findings : list Finding) : list (string * Finding) :=
  fold_left (fun rules_map finding =>
               if existsb (fun kv => String.eqb (fst kv) (f_id finding)) rules_map
               then rules_map
               else (rules_map ++ [(f_id finding, finding)])%list)
            report_findings [].

Record SarifRule := mkSarifRule {
  rule_id : string; rule_name : string;
  rule_short : string; rule_full : string; rule_help : string
}.

Record SarifResult := mkSarifResult {
  res_ruleId : string; res_level : string; res_message : string;
  res_category : string; res_risk : string; res_evidence : list (string * string);
  res_location : option string
}.

(** [render_sarif]: the [rules] and the [results] of the document's single
    run (its other keys are constants). *)
Definition render_sarif (report : ScanReport) : list SarifRule * list SarifResult :=
  let rules_map := _dedupe_rules (findings report) in
  let rules :=
    map (fun kv => {| rule_id := fst kv; rule_name := _sanitize_rule_name (fst kv);
                      rule_short := f_title (snd kv); rule_full := f_details (snd kv);
                      rule_help := f_recommendation (snd kv) |}) rules_map in
  let results :=
    map (fun finding =>
           {| res_ruleId := f_id finding;
              res_level := _risk_to_sarif_level (f_risk finding);
              res_message := f_title finding ++ ": " ++ f_details finding;
              res_category := f_category finding;
              res_risk := risk_value (f_risk finding);
              res_evidence := f_evidence finding;
              res_location :=
                match f_path finding with
                | Some p => if str_truthy p then Some p else None
                | None => None
                end |}) (findings report) in
  (rules, results).

(* ================================================================== *)
(** * Properties *)

(** The order the specification asks of a report: [HIGH=0 ... INFO=3]
    non-decreasing along the list, titles non-decreasing among equal
    ranks. *)
Definition spec_total_order (l : list Finding) : Prop :=
  forall i j f1 f2, (i < j)%nat -> l !! i = Some f1 -> l !! j = Some f2 ->
    (risk_order (f_risk f1) <= risk_order (f_risk f2))%nat /\
    (risk_order (f_risk f1) = risk_order (f_risk f2) ->
     String.leb (f_title f1) (f_title f2) = true).

(** A concrete machine: no file exists, no mtime, an empty Homebrew cache. *)
Definition host0 : Host := {|
  h_exists := fun _ => false; h_mtime := fun _ => None; h_now := 0%Z; h_homebrew_apps := []
|}.

Definition app_A : Artifact := {|
  a_name := Some "A"; a_bundle_id := Some "com.example.a";
  a_exec_path := Some "/Applications/A.app/Contents/MacOS/A"; a_app_path := None;
  a_label := None; a_program := None; a_plist_path := None; a_scope := None;
  a_run_at_load := None |}.

Definition app_B : Artifact := {|
  a_name := Some "B"; a_bundle_id := Some "com.microsoft.b";
  a_exec_path := Some "/Applications/B.app/Contents/MacOS/B"; a_app_path := None;
  a_label := None; a_program := None; a_plist_path := None; a_scope := None;
  a_run_at_load := None |}.

(** Collectors: A's signature fails, B is signed by a known vendor;
    Gatekeeper accepts both; no quarantine attribute. *)
Definition coll0 : Collectors := {|
  codesign_verify := fun p =>
    if String.eqb p "/Applications/A.app/Contents/MacOS/A"
    then Some {| cs_status := Some "fail"; cs_team_id := Some ""; cs_raw := Some "invalid" |}
    else Some {| cs_status := Some "ok"; cs_team_id := Some "UBF8T346G9"; cs_raw := Some "" |};
  spctl_assess := fun _ => Some {| sp_status := Some "accepted"; sp_source := Some "Notarized Developer ID";
                                   sp_raw := Some "" |};
  get_quarantine := fun _ => Some {| q_is_quarantined := Some "false"; q_value := Some "" |}
|}.

Definition host_info0 : HostInfo := {|
  os_version := "14.2.1"; build := "23C71"; arch := "arm64"; hostname := "mac.local" |}.

Definition no_regex (_ _ : string) : bool := false.

(** Prefix cancellation for string concatenation. *)
Lemma append_cancel_l (p s1 s2 : string) : p ++ s1 = p ++ s2 -> s1 = s2.
Proof.
  induction p as [|c p IH]; simpl; [auto|].
  intros Heq. injection Heq as Heq. exact (IH Heq).
Qed.

(** ** C1 *)

(** C1 (code_bug evidence): a scan of an app whose signature fails (HIGH)
    and of a fully verified app (INFO) returns a report that lists the INFO
    finding first and the HIGH finding last, so the report is not ordered
    HIGH first as the specification (and the code's own comment "highest
    first") says: [Risk.__lt__] makes INFO the smallest key. *)
Lemma run_scan_lists_info_before_high :
  exists r,
    run_scan no_regex host0 coll0 (Some host_info0) (Some [app_A; app_B]) (Some [])
      "2026-01-01T00:00:00" None = inr r /\
    map f_risk (findings r) = [INFO; HIGH] /\
    ~ spec_total_order (findings r).
Proof.
  eexists. split; [vm_compute; reflexivity|]. split; [vm_compute; reflexivity|].
  intros Hord.
  edestruct (Hord 0%nat 1%nat) as [Hle _]; [lia|reflexivity|reflexivity|].
  simpl in Hle. lia.
Qed.

(** ** Shape of the findings of each analyser *)

(** Case analysis on the rule guards of an analyser until each membership
    hypothesis names one constructed finding. *)
Ltac split_rules H :=
  repeat match type of H with
  | In _ (_ ++ _)%list => apply in_app_or in H; destruct H as [H|H]
  | In _ (match ?x with _ => _ end) => destruct x eqn:?
  | In _ (if ?b then _ else _) => destruct b eqn:?
  | In _ [] => destruct H
  | In _ [_] => destruct H as [<-|[]]
  end.

Lemma analyze_launchd_shape (item : Artifact) cs sp q cfg f :
  In f (analyze_launchd item cs sp q cfg) ->
  let base := "persistence:" ++ default "unknown" (a_scope item) ++ ":" ++
              default "unknown" (a_label item) in
  f_category f = "persistence" /\
  (f_id f = base ++ ":codesign_fail" \/ f_id f = base ++ ":spctl_rejected" \/
   (f_id f = base ++ ":user_writable" /\ f_risk f = HIGH /\
    String.eqb (default "unknown" (a_scope item)) "daemon" = true /\
    is_user_writable_path (default "" (a_program item)) = true) \/
   f_id f = base ++ ":quarantined" \/ f_id f = base ++ ":quarantined_only").
Proof.
  intros H. unfold analyze_launchd in H. cbv zeta in H.
  split_rules H; simpl; auto 10.
  apply andb_prop in Heqb as [? ?]. auto 10.
Qed.

(** The user-writable-daemon rule fires whenever [is_user_writable_path]
    accepts the program, whatever the collectors report. *)
Lemma analyze_launchd_user_writable_daemon (item : Artifact) cs sp q cfg :
  default "unknown" (a_scope item) = "daemon" ->
  is_user_writable_path (default "" (a_program item)) = true ->
  exists f, In f (analyze_launchd item cs sp q cfg) /\
    f_id f = ("persistence:daemon:" ++ default "unknown" (a_label item)) ++ ":user_writable" /\
    f_risk f = HIGH.
Proof.
  intros Hs Hw. unfold analyze_launchd. cbv zeta. rewrite Hs, Hw.
  eexists. split.
  - rewrite !in_app_iff. right. right. left. simpl. left. reflexivity.
  - split; reflexivity.
Qed.

(** ** C2 *)

Definition bob_daemon : Artifact := {|
  a_name := None; a_bundle_id := None; a_exec_path := None; a_app_path := None;
  a_label := Some "com.bob.x"; a_program := Some "/Users/bob/bin/x";
  a_plist_path := Some "/Library/LaunchDaemons/com.bob.x.plist";
  a_scope := Some "daemon"; a_run_at_load := Some true |}.

(** C2 (code_bug evidence): for the daemon whose program is
    [/Users/bob/bin/x], [analyze_launchd] emits no
    [persistence:daemon:com.bob.x:user_writable] finding, whatever the
    codesign, Gatekeeper and quarantine results and the configuration:
    [is_user_writable_path] lower-cases the path and then compares it with
    the prefix ["/Users/"], which still has an upper-case [U]. *)
Lemma analyze_launchd_users_path_not_flagged :
  is_user_writable_path "/Users/bob/bin/x" = false /\
  forall cs sp q cfg f,
    In f (analyze_launchd bob_daemon cs sp q cfg) ->
    f_id f <> "persistence:daemon:com.bob.x:user_writable".
Proof.
  split; [reflexivity|].
  intros cs sp q cfg f Hin.
  destruct (analyze_launchd_shape _ _ _ _ _ _ Hin) as [_ Hid]. simpl in Hid.
  destruct Hid as [->|[->|[[_ [_ [_ Hw]]]|[->| ->]]]]; try discriminate.
Qed.

(** ** C3 *)

(** C3 (counterexample): both inventories raise, host information is
    available, and [run_scan] still returns a report (with no findings)
    instead of a fatal error. *)
Lemma run_scan_total_inventory_failure_not_fatal :
  exists r,
    run_scan no_regex host0 coll0 (Some host_info0) None None "2026-01-01T00:00:00" None = inr r /\
    findings r = [].
Proof. eexists. split; reflexivity. Qed.

(** C3 (amended): with host information available, [run_scan] always
    returns a report; an inventory that raises is caught and contributes
    exactly what an empty inventory contributes (no findings) while the
    other category is scanned as usual; when both raise the report has no
    findings.  The one failure returned to the caller is that of
    [get_host_info], whatever the inventories do. *)
Theorem run_scan_inventory_failure_contained re h coll hi apps items now cfg :
  (exists r, run_scan re h coll (Some hi) apps items now cfg = inr r) /\
  (exists e, run_scan re h coll None apps items now cfg = inl e) /\
  run_scan re h coll (Some hi) None items now cfg =
    run_scan re h coll (Some hi) (Some []) items now cfg /\
  run_scan re h coll (Some hi) apps None now cfg =
    run_scan re h coll (Some hi) apps (Some []) now cfg /\
  run_scan re h coll (Some hi) None None now cfg =
    inr {| schema_version := "0.1"; host := hi; timestamp := now ++ "Z"; findings := [] |}.
Proof.
  split; [eexists; reflexivity|]. split; [eexists; reflexivity|].
  split; [reflexivity|]. split; [reflexivity|].
  destruct cfg; reflexivity.
Qed.

(** ** C4 *)


Definition app_old : Artifact := {|
  a_name := Some "Old"; a_bundle_id := Some "org.example.old";
  a_exec_path := Some "/Applications/Old.app/Contents/MacOS/Old"; a_app_path := None;
  a_label := None; a_program := None; a_plist_path := None; a_scope := None;
  a_run_at_load := None |}.

Definition cs_fail_unknown : CodesignRes :=
  {| cs_status := Some "fail"; cs_team_id := Some "ZZZZZZZZZZ"; cs_raw := Some "" |}.

Definition cfg_old_apps : Config :=
  {| min_risk := "MED"; exclude_vendors := []; trusted_vendors := [];
     ignore_findings := []; ignore_patterns := [];
     baseline_file := "~/.macos-trust/baseline.json";
     trust_homebrew_cask := false; trust_app_store := true;
     trust_old_apps := true; old_app_days := 30%Z |}.





(** ** C5 *)

Lemma string_app_assoc (a b c : string) : (a ++ b) ++ c = a ++ (b ++ c).
Proof.
  induction a as [|x a IH]; [reflexivity|].
  change (String x ((a ++ b) ++ c) = String x (a ++ (b ++ c))). rewrite IH. reflexivity.
Qed.

Ltac close_shape :=
  split; [reflexivity|]; eexists; split; [|reflexivity]; simpl; tauto.

Lemma analyze_app_shape h app cs sp q ent cfg f :
  In f (analyze_app h app cs sp q ent cfg) ->
  f_category f = "app" /\
  exists rule, In rule ["codesign_fail"; "spctl_rejected"; "quarantined"; "verified";
                        "high_risk_entitlements"; "sensitive_entitlements"] /\
    f_id f = "app:" ++ py_or (a_bundle_id app) (default "unknown" (a_name app)) ++ ":" ++ rule.
Proof.
  intros H. unfold analyze_app in H. cbv zeta in H.
  split_rules H; close_shape.
Qed.

Lemma analyze_browser_extension_shape ext cfg f :
  In f (analyze_browser_extension ext cfg) ->
  f_category f = "browser_extension" /\
  exists rule, In rule ["high_risk_permissions"; "broad_access"; "suspicious_permissions"; "info"] /\
    f_id f = "browser_ext:" ++ default "unknown" (e_browser ext) ++ ":" ++
             default "unknown" (e_id ext) ++ ":" ++ rule.
Proof.
  intros H. unfold analyze_browser_extension in H. cbv zeta in H.
  split_rules H; split; try reflexivity; eexists; (split; [|rewrite !string_app_assoc; reflexivity]);
    simpl; tauto.
Qed.

Definition ext_chrome : Extension := {|
  e_browser := Some "chrome"; e_id := Some "abcdefghijklmnop"; e_name := Some "Helper";
  e_manifest_path := Some "/Users/bob/Library/Application Support/Google/Chrome/Default/Extensions/abcdefghijklmnop/1.0/manifest.json";
  e_version := Some "1.0"; e_permissions := Some ["debugger"]; e_host_permissions := Some [] |}.

(** C5 (counterexample): a Chrome extension holding the [debugger]
    permission gets a finding of category ["browser_extension"] whose id
    starts with ["browser_ext:"], not with ["browser_extension:"]. *)
Lemma browser_extension_id_prefix_differs :
  exists f rest,
    analyze_browser_extension ext_chrome None = f :: rest /\
    f_category f = "browser_extension" /\
    f_id f = "browser_ext:chrome:abcdefghijklmnop:high_risk_permissions" /\
    startswith (f_id f) (f_category f ++ ":") = false.
Proof. do 2 eexists. split; [vm_compute; reflexivity|]. split; [reflexivity|]. split; reflexivity. Qed.

(** C5 (amended): every finding id is [prefix:subject-key:rule] built only
    from fields of the artifact record (never from the host state, the clock
    or a random source).  The prefix is the category for app findings
    ([app:<bundle id or name>]) and persistence findings
    ([persistence:<scope>:<label>]) and for the kext findings
    [analyze_kext] returns ([kext:<bundle id, else name>], whatever the
    validation of their evidence does); browser-extension findings have
    category ["browser_extension"] but prefix ["browser_ext"]
    ([browser_ext:<browser>:<extension id>]). *)
Theorem finding_id_composition h app cs sp q ent cfg item cs' sp' q' cfg' ext cfg'' validate kx cfk :
  (forall f, In f (analyze_app h app cs sp q ent cfg) ->
     f_category f = "app" /\
     exists rule, In rule ["codesign_fail"; "spctl_rejected"; "quarantined"; "verified";
                           "high_risk_entitlements"; "sensitive_entitlements"] /\
       f_id f = "app:" ++ py_or (a_bundle_id app) (default "unknown" (a_name app)) ++ ":" ++ rule) /\
  (forall f, In f (analyze_launchd item cs' sp' q' cfg') ->
     f_category f = "persistence" /\
     exists rule, In rule ["codesign_fail"; "spctl_rejected"; "user_writable"; "quarantined";
                           "quarantined_only"] /\
       f_id f = "persistence:" ++ default "unknown" (a_scope item) ++ ":" ++
                default "unknown" (a_label item) ++ ":" ++ rule) /\
  (forall f, In f (analyze_browser_extension ext cfg'') ->
     f_category f = "browser_extension" /\
     exists rule, In rule ["high_risk_permissions"; "broad_access"; "suspicious_permissions"; "info"] /\
       f_id f = "browser_ext:" ++ default "unknown" (e_browser ext) ++ ":" ++
                default "unknown" (e_id ext) ++ ":" ++ rule) /\
  (forall fs f, analyze_kext validate kx cfk = inr fs -> In f fs ->
     f_category f = "kext" /\
     exists rule, In rule ["unsigned"; "invalid_signature"] /\
       f_id f = "kext:" ++ default (default "Unknown" (k_name kx)) (k_bundle_id kx) ++ ":" ++ rule).
Proof.
  split; [exact (analyze_app_shape h app cs sp q ent cfg)|].
  split; [|split; [exact (analyze_browser_extension_shape ext cfg'')|]].
  - intros f Hin. destruct (analyze_launchd_shape _ _ _ _ _ _ Hin) as [Hc Hid].
    split; [exact Hc|]. cbv zeta in Hid.
    rewrite !string_app_assoc in Hid.
    destruct Hid as [Hid|[Hid|[[Hid _]|[Hid|Hid]]]]; rewrite Hid; eexists;
      (split; [|reflexivity]); simpl; tauto.
  - intros fs f H Hin. unfold analyze_kext in H. cbv zeta in H.
    destruct (String.eqb _ "system"); [injection H as <-; destruct Hin|].
    destruct (String.eqb (kext_codesign_get kc_status kx "unknown") "unsigned");
      [|destruct (String.eqb (kext_codesign_get kc_status kx "unknown") "invalid");
        [|injection H as <-; destruct Hin]].
    + destruct (_create_unsigned_kext_finding _ _ _ _ _) as [e|g] eqn:Eg; [discriminate H|].
      injection H as <-. destruct Hin as [<-|[]].
      unfold _create_unsigned_kext_finding, kext_finding in Eg.
      destruct (validate_evidence _ _); [discriminate Eg|]. injection Eg as <-.
      split; [reflexivity|]. exists "unsigned". split; [simpl; tauto|].
      cbn [f_id]. rewrite string_app_assoc. reflexivity.
    + destruct (_create_invalid_kext_finding _ _ _ _ _) as [e|g] eqn:Eg; [discriminate H|].
      injection H as <-. destruct Hin as [<-|[]].
      unfold _create_invalid_kext_finding, kext_finding in Eg.
      destruct (validate_evidence _ _); [discriminate Eg|]. injection Eg as <-.
      split; [reflexivity|]. exists "invalid_signature". split; [simpl; tauto|].
      cbn [f_id]. rewrite string_app_assoc. reflexivity.
Qed.

(** ** C6 *)

(** The same machine at clock time [now]: the app was last modified at
    time 0 and has no App Store receipt. *)
Definition host_at (now : Z) : Host := {|
  h_exists := fun _ => false; h_mtime := fun _ => Some 0%Z; h_now := now; h_homebrew_apps := [] |}.

(** C6 (counterexample): [analyze_app] evaluated twice on the same app
    record, collector results and configuration returns different findings
    when the clock has moved from day 29 to day 30 after the app's mtime
    between the two evaluations: the codesign-fail finding goes from HIGH to
    LOW.  The rule engine reads the clock and the file system through
    [AppContext]. *)
Lemma analyze_app_depends_on_clock :
  exists f1 f2 rest1 rest2,
    analyze_app (host_at (29 * 86400)) app_old (Some cs_fail_unknown) None None None
      (Some cfg_old_apps) = f1 :: rest1 /\
    analyze_app (host_at (30 * 86400)) app_old (Some cs_fail_unknown) None None None
      (Some cfg_old_apps) = f2 :: rest2 /\
    f_id f1 = f_id f2 /\ f_risk f1 = HIGH /\ f_risk f2 = LOW.
Proof.
  do 4 eexists. split; [vm_compute; reflexivity|]. split; [vm_compute; reflexivity|].
  split; [reflexivity|]. split; reflexivity.
Qed.

(** C6 (amended): two evaluations of [analyze_app] on identical arguments
    (artifact record, collector results, entitlements, configuration) return
    identical finding lists (ids, severities, titles, evidence, ...) as soon
    as the two host states give the app's path the same App Store receipt
    answer and the same age in days; the rest of the host (other files, the
    Homebrew cache) plays no part. *)
Theorem analyze_app_deterministic_given_context h1 h2 app cs sp q ent cfg :
  let p := app_path_of app in
  ctx_is_app_store (AppContext_init h1 p) = ctx_is_app_store (AppContext_init h2 p) ->
  ctx_age_days (AppContext_init h1 p) = ctx_age_days (AppContext_init h2 p) ->
  analyze_app h1 app cs sp q ent cfg = analyze_app h2 app cs sp q ent cfg.
Proof.
  intros p Hstore Hage. unfold analyze_app. cbv zeta. fold p.
  destruct (str_truthy p); [|reflexivity].
  rewrite Hstore, Hage. reflexivity.
Qed.

Lemma analyze_app_deterministic_given_context_witness :
  let p := app_path_of app_old in
  ctx_is_app_store (AppContext_init (host_at 0) p) = ctx_is_app_store (AppContext_init host0 p) /\
  ctx_age_days (AppContext_init (host_at 0) p) = ctx_age_days (AppContext_init host0 p) /\
  analyze_app (host_at 0) app_old (Some cs_fail_unknown) None None None (Some cfg_old_apps) =
  analyze_app host0 app_old (Some cs_fail_unknown) None None None (Some cfg_old_apps).
Proof.
  intros p. split; [vm_compute; reflexivity|]. split; [vm_compute; reflexivity|].
  apply analyze_app_deterministic_given_context; vm_compute; reflexivity.
Defined.

(** ** C7 *)

Lemma filter_loop_filter self fs : filter_loop self fs = List.filter (is_new_or_changed self) fs.
Proof. induction fs as [|f fs IH]; simpl; [reflexivity|]. rewrite IH. reflexivity. Qed.

Lemma filter_new_findings_filter self fs :
  filter_new_findings self fs = List.filter (is_new_or_changed self) fs.
Proof.
  unfold filter_new_findings. destruct (decide (self = ∅)) as [->|_].
  - symmetry. apply forallb_filter_id. apply forallb_forall. intros f _.
    unfold is_new_or_changed. rewrite lookup_empty. reflexivity.
  - apply filter_loop_filter.
Qed.

Lemma is_new_or_changed_spec self f :
  is_new_or_changed self f = true <->
  self !! f_id f = None \/
  exists e, self !! f_id f = Some e /\ b_risk e <> Some (risk_value (f_risk f)).
Proof.
  unfold is_new_or_changed. destruct (self !! f_id f) as [e|]; split.
  - intros H. right. exists e. split; [reflexivity|]. intros Hr. rewrite Hr in H.
    simpl in H. rewrite String.eqb_refl in H. discriminate.
  - intros [H|(e' & He & Hne)]; [discriminate|]. injection He as <-.
    destruct (b_risk e) as [r|]; simpl; [|reflexivity].
    destruct (String.eqb r (risk_value (f_risk f))) eqn:E; [|reflexivity].
    apply String.eqb_eq in E. subst. congruence.
  - intros _. left. reflexivity.
  - intros _. reflexivity.
Qed.

Definition mk_finding (id : string) (r : Risk) : Finding :=
  {| f_id := id; f_category := "app"; f_risk := r; f_title := "Finding " ++ id;
     f_details := ""; f_path := None; f_evidence := []; f_recommendation := "" |}.

Definition report_of (fs : list Finding) : ScanReport :=
  {| schema_version := "0.1"; host := host_info0; timestamp := "2026-01-01T00:00:00Z";
     findings := fs |}.

(** C7: [filter_new_findings] keeps a finding exactly when its id is absent
    from the baseline or is recorded there with another severity, in the
    order of its input; with the baseline {t1:HIGH, t2:MED} and the scan
    {t1:HIGH, t2:MED, t3:HIGH} it returns exactly [t3]. *)
Theorem filter_new_findings_iff (self : Baseline) (fs : list Finding) :
  filter_new_findings self fs = List.filter (is_new_or_changed self) fs /\
  (forall f, In f (filter_new_findings self fs) <->
     In f fs /\
     (self !! f_id f = None \/
      exists e, self !! f_id f = Some e /\ b_risk e <> Some (risk_value (f_risk f)))) /\
  filter_new_findings
    (snd (baseline_load (fst (baseline_save "2026-01-01T00:00:00+00:00"
                                (report_of [mk_finding "t1" HIGH; mk_finding "t2" MED]))) ∅))
    [mk_finding "t1" HIGH; mk_finding "t2" MED; mk_finding "t3" HIGH] =
    [mk_finding "t3" HIGH].
Proof.
  split; [apply filter_new_findings_filter|]. split; [|vm_compute; reflexivity].
  intros f. rewrite filter_new_findings_filter, filter_In, is_new_or_changed_spec. reflexivity.
Qed.

(** ** C8 *)

Section SaveFold.
Variable report : ScanReport.

Let ins := fun (m : gmap string BaselineEntry) (f : Finding) =>
  <[f_id f := baseline_entry report f]> m.

Lemma save_fold_lookup (l : list Finding) (m : gmap string BaselineEntry) k e :
  fold_left ins l m !! k = Some e ->
  (exists g, In g l /\ f_id g = k /\ e = baseline_entry report g) \/ m !! k = Some e.
Proof.
  revert m. induction l as [|f l IH]; intros m H; simpl in H; [right; exact H|].
  destruct (IH _ H) as [(g & Hg & Hk & He)|Hm].
  - left. exists g. split; [right; exact Hg|]. split; assumption.
  - unfold ins in Hm. rewrite lookup_insert in Hm. case_decide as Hfk.
    + injection Hm as <-. left. exists f. split; [left; reflexivity|]. split; [exact Hfk|reflexivity].
    + right. exact Hm.
Qed.

Lemma save_fold_keeps (l : list Finding) (m : gmap string BaselineEntry) k :
  is_Some (m !! k) -> is_Some (fold_left ins l m !! k).
Proof.
  revert m. induction l as [|f l IH]; intros m H; simpl; [exact H|].
  apply IH. unfold ins. rewrite lookup_insert. case_decide; [eexists; reflexivity|exact H].
Qed.

Lemma save_fold_present (l : list Finding) (m : gmap string BaselineEntry) f :
  In f l -> is_Some (fold_left ins l m !! f_id f).
Proof.
  revert m. induction l as [|g l IH]; intros m Hin; [destruct Hin|]. simpl.
  destruct Hin as [<-|Hin]; [|apply IH; exact Hin].
  apply save_fold_keeps. unfold ins. rewrite lookup_insert_eq. eexists; reflexivity.
Qed.

End SaveFold.

Lemma filter_none {A} (p : A -> bool) (l : list A) :
  (forall x, In x l -> p x = false) -> List.filter p l = [].
Proof.
  induction l as [|x l IH]; intros H; simpl; [reflexivity|].
  rewrite (H x (or_introl eq_refl)). apply IH. intros y Hy. apply H. right. exact Hy.
Qed.

(** [Baseline.save(report)], then [Baseline.load()] on a fresh object
    ([self.findings = {}]), then [filter_new_findings(report.findings)]. *)
Definition diff_after_save_load (created_at : string) (report : ScanReport) : list Finding :=
  let '(file, _) := baseline_save created_at report in
  let '(_, loaded) := baseline_load file ∅ in
  filter_new_findings loaded (findings report).

(** C8 (counterexample): a report holding two findings with the same id and
    different severities (two apps sharing a bundle identifier) does not
    round-trip: the saved baseline keeps only the last severity, so the
    first finding comes back from the diff. *)
Lemma baseline_roundtrip_duplicate_ids :
  diff_after_save_load "2026-01-01T00:00:00+00:00"
    (report_of [mk_finding "app:com.example.dup:codesign_fail" HIGH;
                mk_finding "app:com.example.dup:codesign_fail" MED]) =
  [mk_finding "app:com.example.dup:codesign_fail" HIGH].
Proof. vm_compute. reflexivity. Qed.

(** The last finding of [l] with id [k]: the one whose entry the dict
    comprehension of [Baseline.save] keeps. *)
Definition last_of_id (k : string) (l : list Finding) : option Finding :=
  List.find (fun g => String.eqb (f_id g) k) (rev l).

Lemma find_app_first {A} (p : A -> bool) (l1 l2 : list A) :
  List.find p (l1 ++ l2) = match List.find p l1 with Some x => Some x | None => List.find p l2 end.
Proof. induction l1 as [|x l1 IH]; simpl; [reflexivity|]. destruct (p x); [reflexivity|exact IH]. Qed.

Lemma save_fold_last (report : ScanReport) (l : list Finding) (m : gmap string BaselineEntry) k :
  fold_left (fun m f => <[f_id f := baseline_entry report f]> m) l m !! k =
  match last_of_id k l with Some g => Some (baseline_entry report g) | None => m !! k end.
Proof.
  revert m. induction l as [|f l IH]; intros m; [reflexivity|].
  cbn [fold_left]. rewrite IH. unfold last_of_id. cbn [rev]. rewrite find_app_first.
  destruct (List.find (fun g => String.eqb (f_id g) k) (rev l)); [reflexivity|].
  cbn [List.find]. rewrite lookup_insert. case_decide as Hk.
  - subst k. rewrite String.eqb_refl. reflexivity.
  - rewrite (proj2 (String.eqb_neq _ _) Hk). reflexivity.
Qed.

(** C8 (amended): saving the report, loading the baseline back and diffing
    the same findings returns, in order, exactly the findings whose severity
    differs from that of the last finding of the report with the same id
    (the one the saved baseline keeps); so it gives the empty list when
    findings of the report that share an id also share their severity (in
    particular when the ids are distinct). *)
Theorem baseline_roundtrip_empty (created_at : string) (report : ScanReport) :
  diff_after_save_load created_at report =
    List.filter (fun f =>
        match last_of_id (f_id f) (findings report) with
        | Some g => negb (String.eqb (risk_value (f_risk g)) (risk_value (f_risk f)))
        | None => true
        end) (findings report) /\
  ((forall f g, In f (findings report) -> In g (findings report) ->
      f_id f = f_id g -> f_risk f = f_risk g) ->
   diff_after_save_load created_at report = []).
Proof.
  split.
  - unfold diff_after_save_load, baseline_save, baseline_load. simpl.
    rewrite filter_new_findings_filter. apply List.filter_ext. intros f.
    unfold is_new_or_changed, baseline_findings_of. rewrite save_fold_last, lookup_empty.
    destruct (last_of_id (f_id f) (findings report)); reflexivity.
  - intros Huniq. unfold diff_after_save_load, baseline_save, baseline_load. simpl.
    rewrite filter_new_findings_filter.
    apply filter_none. intros f Hin.
    apply not_true_iff_false. rewrite is_new_or_changed_spec. unfold baseline_findings_of.
    destruct (save_fold_present report (findings report) ∅ f Hin) as [e He].
    rewrite He. intros [Hn|(e' & He' & Hne)]; [discriminate|].
    injection He' as <-.
    destruct (save_fold_lookup report (findings report) ∅ (f_id f) e He)
      as [(g & Hg & Hk & ->)|Hm]; [|rewrite lookup_empty in Hm; discriminate].
    apply Hne. simpl. rewrite (Huniq g f Hg Hin Hk). reflexivity.
Qed.

Lemma baseline_roundtrip_empty_witness :
  diff_after_save_load "2026-01-01T00:00:00+00:00"
    (report_of [mk_finding "t1" HIGH; mk_finding "t2" MED]) = [] /\
  diff_after_save_load "2026-01-01T00:00:00+00:00"
    (report_of [mk_finding "t1" HIGH; mk_finding "t1" MED; mk_finding "t1" HIGH]) =
    [mk_finding "t1" MED].
Proof.
  split.
  - apply (proj2 (baseline_roundtrip_empty "2026-01-01T00:00:00+00:00"
                    (report_of [mk_finding "t1" HIGH; mk_finding "t2" MED]))). simpl.
    intros f g [<-|[<-|[]]] [<-|[<-|[]]]; simpl; intros H; try reflexivity; discriminate.
  - rewrite (proj1 (baseline_roundtrip_empty "2026-01-01T00:00:00+00:00"
                    (report_of [mk_finding "t1" HIGH; mk_finding "t1" MED; mk_finding "t1" HIGH]))).
    vm_compute. reflexivity.
Defined.

(** ** C9 *)

Lemma str_in_spec (x : string) (l : list string) : str_in x l = true <-> In x l.
Proof.
  unfold str_in. rewrite existsb_exists. split.
  - intros (y & Hy & E). apply String.eqb_eq in E. subst. exact Hy.
  - intros Hx. exists x. split; [exact Hx|]. apply String.eqb_refl.
Qed.

(** The test of one finding against the suppression settings. *)
Definition suppressed (re_match : string -> string -> bool) (config : Config) (f : Finding) : bool :=
  str_in (f_id f) (ignore_findings config) ||
  existsb (fun pattern => re_match pattern (f_id f)) (ignore_patterns config).

Lemma apply_config_filters_filter re fs cfg :
  _apply_config_filters re fs cfg = List.filter (fun f => negb (suppressed re cfg f)) fs.
Proof.
  unfold _apply_config_filters. induction fs as [|f fs IH]; simpl; [reflexivity|].
  unfold suppressed at 1.
  destruct (str_in (f_id f) (ignore_findings cfg)); simpl; [exact IH|].
  destruct (existsb _ _); simpl; [exact IH|]. rewrite IH. reflexivity.
Qed.

(** C9: [_apply_config_filters] drops a finding exactly when its id is in
    [ignore_findings] or [re.match] succeeds for at least one pattern of
    [ignore_patterns]; the other findings are kept unchanged and in their
    original order (the result is a [filter] of the input). *)
Theorem apply_config_filters_union (re_match : string -> string -> bool)
    (fs : list Finding) (cfg : Config) :
  _apply_config_filters re_match fs cfg = List.filter (fun f => negb (suppressed re_match cfg f)) fs /\
  (forall f, In f (_apply_config_filters re_match fs cfg) <->
     In f fs /\
     ~ (In (f_id f) (ignore_findings cfg) \/
        exists pattern, In pattern (ignore_patterns cfg) /\ re_match pattern (f_id f) = true)).
Proof.
  split; [apply apply_config_filters_filter|].
  intros f. rewrite apply_config_filters_filter, filter_In.
  unfold suppressed. rewrite negb_true_iff, <- not_true_iff_false, orb_true_iff,
    str_in_spec, existsb_exists. reflexivity.
Qed.

(** ** C10 *)

Definition with_run_at_load (item : Artifact) (b : bool) : Artifact :=
  {| a_name := a_name item; a_bundle_id := a_bundle_id item; a_exec_path := a_exec_path item;
     a_app_path := a_app_path item; a_label := a_label item; a_program := a_program item;
     a_plist_path := a_plist_path item; a_scope := a_scope item; a_run_at_load := Some b |}.

(** The finding constructors put their [finding_id] argument in [id]. *)
Lemma codesign_fail_finding_id app cs i c r t :
  f_id (_create_codesign_fail_finding app cs i c r t) = i.
Proof. reflexivity. Qed.

Lemma spctl_rejected_finding_id app sp i c r t :
  f_id (_create_spctl_rejected_finding app sp i c r t) = i.
Proof. reflexivity. Qed.

Lemma user_writable_daemon_finding_id item i :
  f_id (_create_user_writable_daemon_finding item i) = i.
Proof. reflexivity. Qed.

Lemma quarantined_persistence_finding_id item q i b :
  f_id (_create_quarantined_persistence_finding item q i b) = i.
Proof. destruct b; reflexivity. Qed.

Lemma quarantined_persistence_finding_risk item q i b :
  f_risk (_create_quarantined_persistence_finding item q i b) = if b then MED else LOW.
Proof. destruct b; reflexivity. Qed.

Create Rewrite HintDb finding_ids.
#[local] Hint Rewrite codesign_fail_finding_id spctl_rejected_finding_id
  user_writable_daemon_finding_id quarantined_persistence_finding_id : finding_ids.

(** Two ids of one persistence item built from different rule names differ. *)
Ltac distinct_rule_ids H :=
  autorewrite with finding_ids in H; apply append_cancel_l in H; discriminate H.

Lemma launchd_quarantine_id_run_at_load item cs sp q cfg g :
  In g (analyze_launchd item cs sp q cfg) ->
  let base := "persistence:" ++ default "unknown" (a_scope item) ++ ":" ++
              default "unknown" (a_label item) in
  (f_id g = base ++ ":quarantined" -> default false (a_run_at_load item) = true) /\
  (f_id g = base ++ ":quarantined_only" -> default false (a_run_at_load item) = false).
Proof.
  intros H base. unfold analyze_launchd in H. cbv zeta in H. fold base in H.
  split_rules H; split; intros Hid; try reflexivity; try assumption; distinct_rule_ids Hid.
Qed.

Lemma launchd_quarantine_finding item cs sp q cfg :
  q_is_quarantined q = Some "true" ->
  homebrew_trusted cfg (default "" (q_value q)) = false ->
  let base := "persistence:" ++ default "unknown" (a_scope item) ++ ":" ++
              default "unknown" (a_label item) in
  let b := default false (a_run_at_load item) in
  In (_create_quarantined_persistence_finding item q
        (base ++ if b then ":quarantined" else ":quarantined_only") b)
     (analyze_launchd item cs sp (Some q) cfg).
Proof.
  intros Hq Hh base b. unfold analyze_launchd. cbv zeta. fold base. fold b.
  rewrite !in_app_iff. right. right. right.
  cbn [opt_eqb]. rewrite Hq. cbn [opt_eqb]. rewrite String.eqb_refl, Hh.
  destruct b; left; reflexivity.
Qed.

(** The baseline a fresh [Baseline] object holds after [save(report)] and
    [load()]. *)
Definition loaded_baseline (created_at : string) (report : ScanReport) : Baseline :=
  snd (baseline_load (fst (baseline_save created_at report)) ∅).

(** C10: for a quarantined persistence item whose quarantine finding is
    not suppressed by the Homebrew toggle, the finding is
    [<base>:quarantined] with severity MED when [run_at_load] is true and
    [<base>:quarantined_only] with severity LOW when it is false, and the
    other id is never produced; so after a scan with one value of
    [run_at_load] is saved as the baseline, a scan of the same item with the
    flipped value yields a quarantine finding whose id has no baseline entry,
    and the differ reports it as new. *)
Theorem quarantine_finding_identity_follows_run_at_load item cs sp q cfg
    (created_at ts : string) (hi : HostInfo) :
  q_is_quarantined q = Some "true" ->
  homebrew_trusted cfg (default "" (q_value q)) = false ->
  let base := "persistence:" ++ default "unknown" (a_scope item) ++ ":" ++
              default "unknown" (a_label item) in
  let scan := fun b => analyze_launchd (with_run_at_load item b) cs sp (Some q) cfg in
  (exists f, In f (scan true) /\ f_id f = base ++ ":quarantined" /\ f_risk f = MED) /\
  (exists f, In f (scan false) /\ f_id f = base ++ ":quarantined_only" /\ f_risk f = LOW) /\
  (forall b f, In f (scan b) ->
     f_id f <> base ++ (if b then ":quarantined_only" else ":quarantined")) /\
  (forall b f, In f (scan (negb b)) ->
     f_id f = base ++ (if negb b then ":quarantined" else ":quarantined_only") ->
     let bl := loaded_baseline created_at
                 {| schema_version := "0.1"; host := hi; timestamp := ts; findings := scan b |} in
     bl !! f_id f = None /\ In f (filter_new_findings bl (scan (negb b)))).
Proof.
  intros Hq Hh base scan.
  assert (Hbase : forall b, "persistence:" ++ default "unknown" (a_scope (with_run_at_load item b)) ++ ":" ++
                            default "unknown" (a_label (with_run_at_load item b)) = base)
    by reflexivity.
  assert (Hrun : forall b, default false (a_run_at_load (with_run_at_load item b)) = b)
    by reflexivity.
  unfold scan.
  split; [|split; [|split]].
  - pose proof (launchd_quarantine_finding (with_run_at_load item true) cs sp q cfg Hq Hh) as Hin.
    cbv zeta in Hin. rewrite Hbase, Hrun in Hin.
    eexists. split; [exact Hin|]. split; reflexivity.
  - pose proof (launchd_quarantine_finding (with_run_at_load item false) cs sp q cfg Hq Hh) as Hin.
    cbv zeta in Hin. rewrite Hbase, Hrun in Hin.
    eexists. split; [exact Hin|]. split; reflexivity.
  - intros b f Hin Hid.
    destruct (launchd_quarantine_id_run_at_load _ _ _ _ _ _ Hin) as [Ht Hf].
    cbv zeta in Ht, Hf. rewrite Hbase, Hrun in Ht, Hf.
    destruct b; [specialize (Hf Hid)|specialize (Ht Hid)]; discriminate.
  - intros b f Hin Hid. set (bl := loaded_baseline _ _).
    assert (Hnone : bl !! f_id f = None).
    { destruct (bl !! f_id f) as [e|] eqn:He; [|reflexivity]. exfalso.
      unfold bl, loaded_baseline, baseline_save, baseline_load in He. simpl in He.
      destruct (save_fold_lookup _ _ ∅ _ _ He) as [(g & Hg & Hk & _)|Hm];
        [|rewrite lookup_empty in Hm; discriminate].
      simpl in Hg.
      destruct (launchd_quarantine_id_run_at_load _ _ _ _ _ _ Hg) as [Ht Hf].
      cbv zeta in Ht, Hf. rewrite Hbase, Hrun in Ht, Hf. simpl in Hk.
      rewrite Hk in Ht, Hf.
      destruct b; simpl in Hid; [specialize (Hf Hid)|specialize (Ht Hid)]; discriminate. }
    split; [exact Hnone|].
    rewrite filter_new_findings_filter, filter_In. split; [exact Hin|].
    apply is_new_or_changed_spec. left. exact Hnone.
Qed.

Lemma quarantine_finding_identity_follows_run_at_load_witness :
  q_is_quarantined (mkQuar (Some "true") (Some "")) = Some "true" /\
  homebrew_trusted None (default "" (q_value (mkQuar (Some "true") (Some "")))) = false /\
  (exists f, In f (analyze_launchd (with_run_at_load bob_daemon true) None None
                     (Some (mkQuar (Some "true") (Some ""))) None) /\
             f_id f = "persistence:daemon:com.bob.x" ++ ":quarantined" /\ f_risk f = MED).
Proof.
  split; [reflexivity|]. split; [reflexivity|].
  exact (proj1 (quarantine_finding_identity_follows_run_at_load bob_daemon None None
    (mkQuar (Some "true") (Some "")) None "2026-01-01" "2026-01-02" host_info0
    eq_refl eq_refl)).
Defined.

(* ================================================================== *)
(** * Further properties of the code *)

(** ** models.py *)

Lemma risk_eqb_spec (a b : Risk) : risk_eqb a b = true <-> a = b.
Proof. destruct a, b; simpl; split; intros H; congruence. Qed.

(** The comparison operators of [Risk] against the [order] table. *)
Lemma risk_comparisons_order (a b : Risk) :
  (risk_lt a b = true <-> (risk_order b < risk_order a)%nat) /\
  (risk_le a b = true <-> (risk_order b <= risk_order a)%nat) /\
  (risk_gt a b = true <-> (risk_order a < risk_order b)%nat) /\
  (risk_ge a b = true <-> (risk_order a <= risk_order b)%nat).
Proof.
  destruct a, b; cbn; repeat split; intros H; first [reflexivity | discriminate | lia].
Qed.

Lemma string_ltb_asym (s t : string) : String.ltb s t = true -> String.ltb t s = false.
Proof.
  unfold String.ltb. rewrite (String.compare_antisym t s).
  destruct (String.compare s t); simpl; congruence.
Qed.

Lemma key_lt_asym (f g : Finding) : key_lt f g = true -> key_lt g f = false.
Proof.
  unfold key_lt. destruct (risk_eqb (f_risk f) (f_risk g)) eqn:E.
  - apply risk_eqb_spec in E. rewrite E. replace (risk_eqb (f_risk g) (f_risk g)) with true
      by (symmetry; apply risk_eqb_spec; reflexivity).
    apply string_ltb_asym.
  - destruct (risk_eqb (f_risk g) (f_risk f)) eqn:E'.
    + apply risk_eqb_spec in E'. rewrite E' in E.
      rewrite (proj2 (risk_eqb_spec (f_risk f) (f_risk f)) eq_refl) in E. discriminate.
    + unfold risk_lt. intros H. apply Nat.ltb_lt in H. apply Nat.ltb_ge. lia.
Qed.

(** Two adjacent findings [f], [g] of the sorted list: [g] is at least as
    severe as [f], and titles do not decrease between equal severities. *)
Definition severity_then_title (f g : Finding) : Prop :=
  (risk_order (f_risk g) < risk_order (f_risk f))%nat \/
  (f_risk f = f_risk g /\ String.ltb (f_title g) (f_title f) = false).

Lemma key_lt_false_spec (f g : Finding) : key_lt g f = false <-> severity_then_title f g.
Proof.
  unfold key_lt, severity_then_title, risk_lt.
  destruct (risk_eqb (f_risk g) (f_risk f)) eqn:E.
  - apply risk_eqb_spec in E. rewrite E. split.
    + intros H. right. split; [reflexivity|exact H].
    + intros [H|[_ H]]; [lia|exact H].
  - assert (f_risk f <> f_risk g) as Hne.
    { intros Heq. rewrite Heq in E. rewrite (proj2 (risk_eqb_spec _ _) eq_refl) in E. discriminate. }
    rewrite Nat.ltb_ge. split.
    + intros H. left. destruct (f_risk f), (f_risk g); simpl in *; try lia; congruence.
    + intros [H|[H _]]; [lia|congruence].
Qed.

Lemma sorted_weaken {A} (R R' : A -> A -> Prop) (l : list A) :
  (forall x y, R x y -> R' x y) -> Sorted R l -> Sorted R' l.
Proof.
  intros HR Hs. induction Hs as [|x l Hs IH Hd]; constructor; [exact IH|].
  destruct Hd; constructor. apply HR. assumption.
Qed.

Lemma insert_stable_perm x l : insert_stable x l ≡ₚ x :: l.
Proof.
  induction l as [|y l IH]; simpl; [reflexivity|].
  destruct (key_lt x y); [reflexivity|]. rewrite IH. constructor.
Qed.

Lemma insert_stable_hd x y l :
  HdRel (fun f g => key_lt g f = false) y l -> key_lt x y = false ->
  HdRel (fun f g => key_lt g f = false) y (insert_stable x l).
Proof.
  intros Hd Hxy. destruct l as [|z l]; simpl; [constructor; exact Hxy|].
  destruct (key_lt x z); constructor; [exact Hxy|]. inversion Hd; assumption.
Qed.

Lemma insert_stable_sorted x l :
  Sorted (fun f g => key_lt g f = false) l ->
  Sorted (fun f g => key_lt g f = false) (insert_stable x l).
Proof.
  induction l as [|y l IH]; intros Hs; simpl; [repeat constructor|].
  destruct (key_lt x y) eqn:Exy.
  - constructor; [exact Hs|]. constructor. apply key_lt_asym. exact Exy.
  - inversion Hs as [|? ? Hl Hd]; subst. constructor; [apply IH; exact Hl|].
    apply insert_stable_hd; assumption.
Qed.

Lemma sort_fold_perm l acc :
  fold_left (fun acc x => insert_stable x acc) l acc ≡ₚ l ++ acc.
Proof.
  revert acc. induction l as [|x l IH]; intros acc; simpl; [reflexivity|].
  rewrite IH, insert_stable_perm. symmetry. apply Permutation_middle.
Qed.

Lemma sort_fold_sorted l acc :
  Sorted (fun f g => key_lt g f = false) acc ->
  Sorted (fun f g => key_lt g f = false) (fold_left (fun acc x => insert_stable x acc) l acc).
Proof.
  revert acc. induction l as [|x l IH]; intros acc Hs; simpl; [exact Hs|].
  apply IH, insert_stable_sorted, Hs.
Qed.

Lemma sorted_by_key_spec l :
  sorted_by_key l ≡ₚ l /\ Sorted severity_then_title (sorted_by_key l).
Proof.
  unfold sorted_by_key. split.
  - rewrite sort_fold_perm. rewrite app_nil_r. reflexivity.
  - apply (sorted_weaken (fun f g => key_lt g f = false)).
    + intros f g. apply key_lt_false_spec.
    + apply sort_fold_sorted. constructor.
Qed.

(** X: [ScanReport.sorted_findings] returns the report's findings
    rearranged (a permutation) so that each finding is at least as severe as
    the one before it and, between equal severities, titles do not
    decrease: the least severe findings come first. *)
Theorem sorted_findings_spec (r : ScanReport) :
  sorted_findings r ≡ₚ findings r /\ Sorted severity_then_title (sorted_findings r).
Proof. apply sorted_by_key_spec. Qed.

(** X: [ScanReport.get_findings_by_risk(min_risk)] keeps, in order, the
    findings whose severity is at most [min_risk] ([order] at least
    [order[min_risk]]); with its default [Risk.LOW] it returns exactly the
    LOW and INFO findings. *)
Theorem get_findings_by_risk_spec (r : ScanReport) (min_risk : Risk) :
  get_findings_by_risk r min_risk =
    List.filter (fun f => (risk_order min_risk <=? risk_order (f_risk f))%nat) (findings r) /\
  get_findings_by_risk r LOW =
    List.filter (fun f => match f_risk f with LOW | INFO => true | _ => false end) (findings r).
Proof.
  unfold get_findings_by_risk. split; apply List.filter_ext; intros f.
  - destruct (risk_le (f_risk f) min_risk) eqn:E; symmetry.
    + apply Nat.leb_le. apply (proj1 (proj2 (risk_comparisons_order _ _))). exact E.
    + apply Nat.leb_gt. destruct (Nat.le_gt_cases (risk_order min_risk) (risk_order (f_risk f))) as [H|H];
        [|exact H].
      apply (proj1 (proj2 (risk_comparisons_order _ _))) in H. congruence.
  - destruct (f_risk f); reflexivity.
Qed.

(** The number of findings of severity [rk]. *)
Definition count_risk (rk : Risk) (fs : list Finding) : nat :=
  length (List.filter (fun f => risk_eqb (f_risk f) rk) fs).

Definition summary_step (s : gmap string nat) (f : Finding) : gmap string nat :=
  let k := risk_value (f_risk f) in
  match s !! k with Some n => <[k := S n]> s | None => s end.

Lemma risk_value_inj (a b : Risk) : risk_value a = risk_value b -> a = b.
Proof. destruct a, b; simpl; intros H; congruence. Qed.

Lemma summary_fold_absent (fs : list Finding) (m : gmap string nat) k :
  m !! k = None -> fold_left summary_step fs m !! k = None.
Proof.
  revert m. induction fs as [|f fs IH]; intros m Hm; simpl; [exact Hm|].
  apply IH. unfold summary_step. cbv zeta. destruct (m !! risk_value (f_risk f)) eqn:E; [|exact Hm].
  rewrite lookup_insert_ne; [exact Hm|]. intros Heq. rewrite Heq in E. congruence.
Qed.

Lemma summary_fold_count (fs : list Finding) (m : gmap string nat) rk n :
  (forall rk', is_Some (m !! risk_value rk')) ->
  m !! risk_value rk = Some n ->
  fold_left summary_step fs m !! risk_value rk = Some (n + count_risk rk fs)%nat.
Proof.
  unfold count_risk. revert m n. induction fs as [|f fs IH]; intros m n Hall Hm; simpl.
  - rewrite Nat.add_0_r. exact Hm.
  - destruct (Hall (f_risk f)) as [n' Hn'].
    assert (Hstep : summary_step m f = <[risk_value (f_risk f) := S n']> m)
      by (unfold summary_step; cbv zeta; rewrite Hn'; reflexivity).
    rewrite Hstep. destruct (risk_eqb (f_risk f) rk) eqn:E.
    + apply risk_eqb_spec in E. subst rk. rewrite Hm in Hn'. injection Hn' as <-.
      rewrite (IH _ (S n)); [f_equal; simpl; lia| |].
      * intros rk'. rewrite lookup_insert. case_decide; [eexists; reflexivity|apply Hall].
      * apply lookup_insert_eq.
    + apply IH.
      * intros rk'. rewrite lookup_insert. case_decide; [eexists; reflexivity|apply Hall].
      * rewrite lookup_insert_ne; [exact Hm|]. intros Heq. apply risk_value_inj in Heq.
        rewrite Heq in E. rewrite (proj2 (risk_eqb_spec rk rk) eq_refl) in E. discriminate.
Qed.

Lemma count_risk_total (fs : list Finding) :
  (count_risk HIGH fs + count_risk MED fs + count_risk LOW fs + count_risk INFO fs)%nat = length fs.
Proof.
  unfold count_risk. induction fs as [|f fs IH]; simpl; [reflexivity|].
  destruct (f_risk f); simpl; lia.
Qed.

(** X: [ScanReport.summary] maps each of the four keys ["HIGH"], ["MED"],
    ["LOW"], ["INFO"] to the number of findings of that severity and has no
    other key; the four counts add up to the number of findings. *)
Theorem summary_counts (r : ScanReport) :
  (forall rk, summary r !! risk_value rk = Some (count_risk rk (findings r))) /\
  (forall k, (forall rk, k <> risk_value rk) -> summary r !! k = None) /\
  (count_risk HIGH (findings r) + count_risk MED (findings r) +
   count_risk LOW (findings r) + count_risk INFO (findings r))%nat = length (findings r).
Proof.
  change (summary r) with
    (fold_left summary_step (findings r)
       (list_to_map (map (fun risk => (risk_value risk, 0%nat)) [HIGH; MED; LOW; INFO])
          : gmap string nat)).
  split; [|split; [|apply count_risk_total]].
  - intros rk. rewrite <- (Nat.add_0_l (count_risk rk (findings r))).
    apply summary_fold_count.
    + intros rk'. destruct rk'; eexists; reflexivity.
    + destruct rk; reflexivity.
  - intros k Hk. apply summary_fold_absent.
    apply not_elem_of_list_to_map_1. simpl. rewrite !elem_of_cons, elem_of_nil.
    intros [H|[H|[H|[H|[]]]]]; [apply (Hk HIGH)|apply (Hk MED)|apply (Hk LOW)|apply (Hk INFO)]; exact H.
Qed.

(** ** vendors.py *)

Lemma ascii_lower_not_upper_U (c : ascii) : ascii_lower c <> "U"%char.
Proof. destruct c as [[] [] [] [] [] [] [] []]; vm_compute; intros H; discriminate H. Qed.

Lemma ascii_lower_idem (c : ascii) : ascii_lower (ascii_lower c) = ascii_lower c.
Proof. destruct c as [[] [] [] [] [] [] [] []]; vm_compute; reflexivity. Qed.

Lemma str_lower_idem (s : string) : str_lower (str_lower s) = str_lower s.
Proof. induction s as [|c s IH]; simpl; [reflexivity|]. rewrite ascii_lower_idem, IH. reflexivity. Qed.

Lemma str_truthy_lower (s : string) : str_truthy (str_lower s) = str_truthy s.
Proof. destruct s; reflexivity. Qed.

Lemma startswith_lower_Users (s : string) : startswith (str_lower s) "/Users/" = false.
Proof.
  unfold startswith. destruct s as [|c [|d s]]; cbn [str_lower String.prefix]; [reflexivity|..];
    destruct (Ascii.ascii_dec "/" (ascii_lower c)); try reflexivity.
  destruct (Ascii.ascii_dec "U" (ascii_lower d)) as [E|]; [|reflexivity].
  exfalso. apply (ascii_lower_not_upper_U d). symmetry. exact E.
Qed.

(** X: [is_user_writable_path] ignores case (the path is lower-cased
    first), and its ["/Users/"] entry never matches: a path is reported
    user-writable exactly when it is non-empty and, lower-cased, starts
    with ["/tmp/"], ["/var/tmp/"], ["/private/tmp/"] or ["~/"]. *)
Theorem is_user_writable_path_spec (p : string) :
  is_user_writable_path p =
    str_truthy p &&
    existsb (fun prefix => startswith (str_lower p) prefix) ["/tmp/"; "/var/tmp/"; "/private/tmp/"; "~/"] /\
  is_user_writable_path (str_lower p) = is_user_writable_path p.
Proof.
  unfold is_user_writable_path. split.
  - destruct (str_truthy p); [|reflexivity]. simpl. rewrite startswith_lower_Users. reflexivity.
  - rewrite str_truthy_lower, str_lower_idem. reflexivity.
Qed.

(** X: [get_vendor_name] falls back to the Team ID itself exactly for the
    Team IDs that [is_known_vendor] does not know; a known Team ID gets a
    vendor name different from the ID. *)
Theorem get_vendor_name_fallback (team_id : string) :
  (is_known_vendor team_id = false -> get_vendor_name team_id = team_id) /\
  (is_known_vendor team_id = true -> get_vendor_name team_id <> team_id).
Proof.
  unfold is_known_vendor, get_vendor_name. split.
  - intros H. destruct (find _ _) as [kv|] eqn:E; [|reflexivity].
    apply find_some in E as [Hin Heq]. exfalso.
    assert (existsb (fun kv => String.eqb (fst kv) team_id) KNOWN_VENDORS = true) as Hex
      by (apply existsb_exists; exists kv; split; assumption).
    congruence.
  - intros H. destruct (find _ _) as [kv|] eqn:E.
    + apply find_some in E as [Hin Heq]. apply String.eqb_eq in Heq. subst team_id.
      assert (Hall : forallb (fun kv => negb (String.eqb (snd kv) (fst kv))) KNOWN_VENDORS = true)
        by reflexivity.
      rewrite forallb_forall in Hall. specialize (Hall kv Hin).
      intros Hc. rewrite Hc, String.eqb_refl in Hall. discriminate.
    + apply existsb_exists in H as [kv [Hin Heq]].
      rewrite (find_none _ _ E kv Hin) in Heq. discriminate.
Qed.

(** ** context.py *)

(** [c not in s] for a one-character string [c]. *)
Fixpoint char_free (c : ascii) (s : string) : bool :=
  match s with
  | EmptyString => true
  | String d s' => negb (Ascii.eqb d c) && char_free c s'
  end.

Lemma string_app_nil_r (s : string) : s ++ "" = s.
Proof. induction s as [|c s IH]; [reflexivity|]. change (String c (s ++ "") = String c s). rewrite IH. reflexivity. Qed.

Lemma char_free_app (c : ascii) (a b : string) :
  char_free c (a ++ b) = char_free c a && char_free c b.
Proof.
  induction a as [|d a IH]; [reflexivity|].
  change (negb (Ascii.eqb d c) && char_free c (a ++ b) = (negb (Ascii.eqb d c) && char_free c a) && char_free c b).
  rewrite IH, andb_assoc. reflexivity.
Qed.

Lemma prefix_app (s t : string) : String.prefix s (s ++ t) = true.
Proof.
  induction s as [|c s IH]; [destruct t; reflexivity|].
  simpl. destruct (Ascii.ascii_dec c c) as [_|n]; [exact IH|contradiction].
Qed.

(** The first occurrence of a pattern starting with [c] in [a ++ pattern ++ b]
    is right after [a] when [c] does not occur in [a]. *)
Lemma index_first (c : ascii) (t a b : string) :
  char_free c a = true -> String.index 0 (String c t) (a ++ String c t ++ b) = Some (String.length a).
Proof.
  induction a as [|d a IH]; intros Hf.
  - change (String.index 0 (String c t) (String c (t ++ b)) = Some 0). simpl.
    destruct (Ascii.ascii_dec c c) as [_|n]; [|contradiction]. rewrite prefix_app. reflexivity.
  - simpl in Hf. apply andb_prop in Hf as [Hd Hf].
    change (String.index 0 (String c t) (String d (a ++ String c t ++ b)) = Some (S (String.length a))).
    simpl. destruct (Ascii.ascii_dec c d) as [->|_].
    + rewrite Ascii.eqb_refl in Hd. discriminate.
    + rewrite (IH Hf). reflexivity.
Qed.

Lemma index_absent (c : ascii) (t s : string) :
  char_free c s = true -> String.index 0 (String c t) s = None.
Proof.
  induction s as [|d s IH]; intros Hf; [reflexivity|].
  simpl in Hf. apply andb_prop in Hf as [Hd Hf]. simpl.
  destruct (Ascii.ascii_dec c d) as [->|_].
  - rewrite Ascii.eqb_refl in Hd. discriminate.
  - rewrite (IH Hf). reflexivity.
Qed.

Lemma substring_prefix (a b : string) : String.substring 0 (String.length a) (a ++ b) = a.
Proof.
  induction a as [|c a IH]; [destruct b; reflexivity|].
  change (String c (String.substring 0 (String.length a) (a ++ b)) = String c a). rewrite IH. reflexivity.
Qed.

Lemma substring_skip (a b : string) (k m : nat) :
  String.substring (String.length a + k) m (a ++ b) = String.substring k m b.
Proof. induction a as [|c a IH]; [reflexivity|]. exact IH. Qed.

Lemma split_semicolon_aux_app (a r acc : string) :
  char_free ";" a = true ->
  split_semicolon_aux (a ++ ";" ++ r) acc = (acc ++ a) :: split_semicolon_aux r "".
Proof.
  revert acc. induction a as [|d a IH]; intros acc Hf.
  - simpl. rewrite string_app_nil_r. reflexivity.
  - simpl in Hf. apply andb_prop in Hf as [Hd Hf]. apply negb_true_iff in Hd.
    change (split_semicolon_aux (String d (a ++ ";" ++ r)) acc = (acc ++ String d a) :: split_semicolon_aux r "").
    simpl. rewrite Hd. rewrite (IH _ Hf). rewrite string_app_assoc. reflexivity.
Qed.

Lemma split_semicolon_aux_free (a acc : string) :
  char_free ";" a = true -> split_semicolon_aux a acc = [acc ++ a].
Proof.
  revert acc. induction a as [|d a IH]; intros acc Hf.
  - simpl. rewrite string_app_nil_r. reflexivity.
  - simpl in Hf. apply andb_prop in Hf as [Hd Hf]. apply negb_true_iff in Hd.
    simpl. rewrite Hd, (IH _ Hf), string_app_assoc. reflexivity.
Qed.

Lemma str_truthy_app_sep (a p r : string) : str_truthy p = true -> str_truthy (a ++ p ++ r) = true.
Proof. destruct a; [destruct p; [discriminate|reflexivity]|reflexivity]. Qed.

(** X: [parse_quarantine_source] returns the third [;]-separated field of a
    quarantine value ["flags;timestamp;source"] or
    ["flags;timestamp;source;rest"] (here a source without backslash, so no
    [\x20] to unescape), and [None] for a value with fewer than three
    fields; [is_homebrew_quarantine] and [is_browser_quarantine] then test
    the lower-cased source for ["homebrew"] and for a browser name. *)
Theorem parse_quarantine_source_fields (flags ts source : string) (rest : option string) :
  char_free ";" flags = true -> char_free ";" ts = true ->
  char_free ";" source = true -> char_free "092" source = true ->
  let v := flags ++ ";" ++ ts ++ ";" ++ source ++
           match rest with Some r => ";" ++ r | None => "" end in
  parse_quarantine_source v = Some source /\
  is_homebrew_quarantine v = str_contains "homebrew" (str_lower source) /\
  is_browser_quarantine v =
    str_truthy source &&
    existsb (fun browser => str_contains browser (str_lower source))
            ["safari"; "chrome"; "firefox"; "edge"; "brave"; "opera"] /\
  parse_quarantine_source flags = None /\
  parse_quarantine_source (flags ++ ";" ++ ts) = None.
Proof.
  intros Hf Ht Hs Hb v.
  assert (Hp : parse_quarantine_source v = Some source).
  { unfold parse_quarantine_source, v. rewrite str_truthy_app_sep by reflexivity. simpl negb. cbv iota.
    unfold split_semicolon.
    rewrite (split_semicolon_aux_app _ _ _ Hf), (split_semicolon_aux_app _ _ _ Ht).
    destruct rest as [r|].
    - rewrite (split_semicolon_aux_app _ _ _ Hs).
      cbn [nth_error]. change ("" ++ source) with source. f_equal.
      destruct (String.length source); simpl; [reflexivity|].
      unfold esc_space. rewrite (index_absent _ _ _ Hb). reflexivity.
    - rewrite string_app_nil_r, (split_semicolon_aux_free _ _ Hs).
      cbn [nth_error]. change ("" ++ source) with source. f_equal.
    destruct (String.length source); simpl; [reflexivity|].
    unfold esc_space. rewrite (index_absent _ _ _ Hb). reflexivity. }
  split; [exact Hp|]. split; [unfold is_homebrew_quarantine; rewrite Hp; reflexivity|].
  split; [unfold is_browser_quarantine; rewrite Hp; destruct (str_truthy source); reflexivity|].
  split.
  - unfold parse_quarantine_source. destruct (str_truthy flags); [|reflexivity]. simpl.
    unfold split_semicolon. rewrite (split_semicolon_aux_free _ _ Hf). reflexivity.
  - unfold parse_quarantine_source. rewrite str_truthy_app_sep by reflexivity. simpl negb. cbv iota.
    unfold split_semicolon. rewrite (split_semicolon_aux_app _ _ _ Hf), (split_semicolon_aux_free _ _ Ht).
    reflexivity.
Qed.

Lemma last_segment_aux_after_slash (s n acc : string) :
  last_segment_aux (s ++ "/" ++ n) acc = last_segment_aux n "".
Proof.
  revert acc. induction s as [|c s IH]; intros acc; [reflexivity|].
  change (last_segment_aux (String c (s ++ "/" ++ n)) acc = last_segment_aux n "").
  simpl. destruct (Ascii.eqb c "/"); apply IH.
Qed.

Lemma last_segment_aux_free (n acc : string) :
  char_free "/" n = true -> last_segment_aux n acc = acc ++ n.
Proof.
  revert acc. induction n as [|c n IH]; intros acc Hf.
  - simpl. symmetry. apply string_app_nil_r.
  - simpl in Hf. apply andb_prop in Hf as [Hc Hf]. apply negb_true_iff in Hc.
    simpl. rewrite Hc, (IH _ Hf), string_app_assoc. reflexivity.
Qed.

Lemma string_length_app (a b : string) : String.length (a ++ b) = (String.length a + String.length b)%nat.
Proof. induction a as [|c a IH]; [reflexivity|]. simpl. rewrite IH. reflexivity. Qed.

Lemma substring_skip_all (a b : string) (m : nat) :
  String.substring (String.length a + String.length b) m (a ++ b) = "".
Proof.
  rewrite substring_skip. induction b as [|c b IH]; [destruct m; reflexivity|]. exact IH.
Qed.

Lemma py_remove_app_suffix (name : string) :
  char_free "." name = true -> py_remove ".app" (name ++ ".app") = name.
Proof.
  intros Hf. unfold py_remove.
  assert (Hl : String.length (name ++ ".app") = S (String.length name + 3)).
  { rewrite string_length_app. simpl. lia. }
  rewrite Hl. cbn [remove_all].
  pose proof (index_first "." "app" name "" Hf) as Hi.
  change (String "." "app" ++ "") with ".app" in Hi.
  rewrite Hi, substring_prefix, substring_skip_all.
  destruct (String.length name + 3)%nat; apply string_app_nil_r.
Qed.

(** X: for an executable path inside a bundle,
    [dir/Name.app/rest] with no ['.'] in [dir] or [Name], no ['/'] in
    [Name] and not itself ending in [.app], [_check_app_store] looks for
    [dir/Name.app/Contents/_MASReceipt/receipt], [_extract_app_name]
    returns the lower-cased [Name], and [_check_homebrew] looks that name
    up among the Homebrew casks. *)
Theorem app_context_bundle_path (h : Host) (dir name rest : string) :
  char_free "." dir = true -> char_free "." name = true -> char_free "/" name = true ->
  endswith (dir ++ "/" ++ name ++ ".app/" ++ rest) ".app" = false ->
  _check_app_store h (dir ++ "/" ++ name ++ ".app/" ++ rest) =
    h_exists h (dir ++ "/" ++ name ++ ".app/Contents/_MASReceipt/receipt") /\
  _extract_app_name (dir ++ "/" ++ name ++ ".app/" ++ rest) = str_lower name /\
  _check_homebrew h (dir ++ "/" ++ name ++ ".app/" ++ rest) =
    str_in (str_lower name) (h_homebrew_apps h).
Proof.
  intros Hd Hn Hs He.
  set (pre := dir ++ "/" ++ name).
  assert (Hp : dir ++ "/" ++ name ++ ".app/" ++ rest = pre ++ ".app/" ++ rest)
    by (unfold pre; rewrite !string_app_assoc; reflexivity).
  assert (Hpf : char_free "." pre = true)
    by (unfold pre; rewrite !char_free_app, Hd, Hn; reflexivity).
  assert (Hsplit : split_first ".app/" (pre ++ ".app/" ++ rest) = pre).
  { unfold split_first. rewrite (index_first "." "app/" pre rest Hpf). apply substring_prefix. }
  assert (Hc5 : str_contains ".app/" (pre ++ ".app/" ++ rest) = true).
  { unfold str_contains. rewrite (index_first "." "app/" pre rest Hpf). reflexivity. }
  assert (Hc4 : str_contains ".app" (pre ++ ".app/" ++ rest) = true).
  { unfold str_contains. change (".app/" ++ rest) with (".app" ++ "/" ++ rest).
    rewrite (index_first "." "app" pre ("/" ++ rest) Hpf). reflexivity. }
  assert (Hname : _extract_app_name (pre ++ ".app/" ++ rest) = str_lower name).
  { rewrite <- Hp in Hc4 |- *. unfold _extract_app_name. rewrite Hc4, He, Hp, Hsplit.
    unfold last_segment, pre. rewrite last_segment_aux_after_slash, (last_segment_aux_free _ _ Hs).
    change ("" ++ name) with name. rewrite (py_remove_app_suffix _ Hn). reflexivity. }
  rewrite Hp in He |- *. split; [|split].
  - unfold _check_app_store. rewrite str_truthy_app_sep by reflexivity. simpl negb. cbv iota zeta.
    rewrite He, Hc5, Hsplit. unfold pre. rewrite !string_app_assoc. reflexivity.
  - exact Hname.
  - unfold _check_homebrew. rewrite str_truthy_app_sep, Hname by reflexivity. reflexivity.
Qed.

Definition host_brew : Host := {|
  h_exists := fun _ => false; h_mtime := fun _ => None; h_now := 0%Z; h_homebrew_apps := ["slack"] |}.

Lemma parse_quarantine_source_fields_witness :
  parse_quarantine_source ("0083" ++ ";" ++ "65f1a2b3" ++ ";" ++ "Homebrew Cask" ++ ";" ++ "AB12-CD34")
    = Some "Homebrew Cask" /\
  is_homebrew_quarantine ("0083" ++ ";" ++ "65f1a2b3" ++ ";" ++ "Homebrew Cask" ++ ";" ++ "AB12-CD34")
    = true /\
  parse_quarantine_source ("0083" ++ ";" ++ "65f1a2b3" ++ ";" ++ "Safari" ++ "") = Some "Safari" /\
  is_browser_quarantine ("0083" ++ ";" ++ "65f1a2b3" ++ ";" ++ "Safari" ++ "") = true.
Proof.
  destruct (parse_quarantine_source_fields "0083" "65f1a2b3" "Homebrew Cask" (Some "AB12-CD34")
              eq_refl eq_refl eq_refl eq_refl) as [Hp [Hh _]].
  destruct (parse_quarantine_source_fields "0083" "65f1a2b3" "Safari" None
              eq_refl eq_refl eq_refl eq_refl) as [Hp' [_ [Hb _]]].
  split; [exact Hp|]. split; [rewrite Hh; reflexivity|].
  split; [exact Hp'|]. rewrite Hb. reflexivity.
Defined.

Lemma app_context_bundle_path_witness :
  _check_homebrew host_brew ("/Applications" ++ "/" ++ "Slack" ++ ".app/" ++ "Contents/MacOS/Slack") = true.
Proof.
  pose proof (app_context_bundle_path host_brew "/Applications" "Slack" "Contents/MacOS/Slack"
                eq_refl eq_refl eq_refl eq_refl) as [_ [_ Hb]].
  rewrite Hb. reflexivity.
Defined.

(** ** baseline.py *)

Lemma dom_baseline_fold (report : ScanReport) (l : list Finding) (m : Baseline) :
  dom (fold_left (fun m f => <[f_id f := baseline_entry report f]> m) l m) =@{gset string}
    dom m ∪ list_to_set (map f_id l).
Proof.
  revert m. induction l as [|f l IH]; intros m; cbn [fold_left map list_to_set].
  - set_solver.
  - rewrite IH, dom_insert_L. set_solver.
Qed.

Lemma size_list_to_set_le (l : list string) : size (list_to_set (C:=gset string) l) <= length l.
Proof.
  induction l as [|x l IH]; cbn [list_to_set length]; [rewrite size_empty; lia|].
  rewrite union_comm_L, size_union_alt.
  assert (size ({[x]} ∖ list_to_set (C:=gset string) l) <= 1).
  { rewrite <- (size_singleton (C:=gset string) x). apply subseteq_size. set_solver. }
  lia.
Qed.

(** X: after [Baseline.save], [is_in_baseline] holds exactly for the ids
    of the report's findings, and [get_baseline_count] is the number of
    distinct ids: at most the number of findings, and equal to it when no
    two findings share an id. *)
Theorem baseline_save_index (created_at : string) (report : ScanReport) (k : string) :
  (is_in_baseline (snd (baseline_save created_at report)) k = true <->
     k ∈ map f_id (findings report)) /\
  get_baseline_count (snd (baseline_save created_at report)) =
    size (list_to_set (C:=gset string) (map f_id (findings report))) /\
  get_baseline_count (snd (baseline_save created_at report)) <= length (findings report) /\
  (NoDup (map f_id (findings report)) ->
     get_baseline_count (snd (baseline_save created_at report)) = length (findings report)).
Proof.
  assert (Hdom : dom (snd (baseline_save created_at report)) =@{gset string}
                   list_to_set (map f_id (findings report))).
  { change (snd (baseline_save created_at report)) with (baseline_findings_of report).
    unfold baseline_findings_of. rewrite dom_baseline_fold, dom_empty_L. set_solver. }
  assert (Hsize : get_baseline_count (snd (baseline_save created_at report)) =
                  size (list_to_set (C:=gset string) (map f_id (findings report)))).
  { unfold get_baseline_count. rewrite <- Hdom, size_dom. reflexivity. }
  split; [|split; [exact Hsize|split]].
  - unfold is_in_baseline. rewrite bool_decide_eq_true, <- elem_of_dom, Hdom.
    rewrite elem_of_list_to_set. reflexivity.
  - rewrite Hsize. etransitivity; [apply size_list_to_set_le|]. rewrite length_map. lia.
  - intros Hnd. rewrite Hsize, size_list_to_set by exact Hnd. apply length_map.
Qed.

Lemma baseline_save_index_witness :
  get_baseline_count (snd (baseline_save "2026-01-01T00:00:00+00:00"
    (report_of [mk_finding "t1" HIGH; mk_finding "t2" LOW]))) = 2%nat.
Proof.
  apply (baseline_save_index "2026-01-01T00:00:00+00:00"
           (report_of [mk_finding "t1" HIGH; mk_finding "t2" LOW]) "t1").
  cbn. repeat constructor; set_solver.
Defined.

(** ** cli.py *)

Lemma risk_of_name_spec (name : string) (r : Risk) : risk_of_name name = Some r <-> name = risk_value r.
Proof.
  split.
  - unfold risk_of_name. intros H. apply find_some in H as [_ H].
    apply String.eqb_eq in H. symmetry. exact H.
  - intros ->. destruct r; reflexivity.
Qed.

Lemma risk_of_name_none (name : string) :
  risk_of_name name = None <-> ~ In name ["HIGH"; "MED"; "LOW"; "INFO"].
Proof.
  split.
  - intros Hn Hin.
    assert (exists r, name = risk_value r) as [r Hr]
      by (destruct Hin as [<-|[<-|[<-|[<-|[]]]]]; [exists HIGH|exists MED|exists LOW|exists INFO]; reflexivity).
    apply risk_of_name_spec in Hr. congruence.
  - intros Hnot. destruct (risk_of_name name) as [r|] eqn:E; [|reflexivity].
    apply risk_of_name_spec in E. subst name. exfalso. apply Hnot. destruct r; simpl; tauto.
Qed.

Lemma ascii_upper_lower (c : ascii) : ascii_upper (ascii_lower c) = ascii_upper c.
Proof. destruct c as [[] [] [] [] [] [] [] []]; vm_compute; reflexivity. Qed.

Lemma str_upper_lower (s : string) : str_upper (str_lower s) = str_upper s.
Proof. induction s as [|c s IH]; simpl; [reflexivity|]. rewrite ascii_upper_lower, IH. reflexivity. Qed.

(** X: the severity threshold of [scan]: a non-empty [--min-risk] value
    selects the severity whose name is its upper-cased form (so the value is
    case-insensitive), and any other value exits with code 2; an empty value
    counts as absent; without the option, [--verbose] disables the threshold
    and otherwise the default configuration gives [MED]. *)
Theorem cli_min_risk_level_resolution (m : string) (verbose : bool) (config : Config) :
  (str_truthy m = true -> forall r,
     cli_min_risk_level (Some m) verbose config = inr (Some r) <-> str_upper m = risk_value r) /\
  (str_truthy m = true ->
     cli_min_risk_level (Some m) verbose config = inl 2%nat <->
     ~ In (str_upper m) ["HIGH"; "MED"; "LOW"; "INFO"]) /\
  cli_min_risk_level (Some (str_lower m)) verbose config = cli_min_risk_level (Some m) verbose config /\
  cli_min_risk_level (Some "") verbose config = cli_min_risk_level None verbose config /\
  cli_min_risk_level None true config = inr None /\
  cli_min_risk_level None false default_config = inr (Some MED).
Proof.
  split; [|split; [|split; [|split; [|split]]]]; try reflexivity.
  - intros Ht r. unfold cli_min_risk_level. rewrite Ht. simpl default.
    rewrite <- risk_of_name_spec. destruct (risk_of_name (str_upper m)); split; congruence.
  - intros Ht. unfold cli_min_risk_level. rewrite Ht. simpl default.
    rewrite <- risk_of_name_none. destruct (risk_of_name (str_upper m)); split; congruence.
  - unfold cli_min_risk_level. rewrite str_truthy_lower. simpl default. rewrite str_upper_lower.
    reflexivity.
Qed.

Lemma cli_min_risk_level_resolution_witness :
  cli_min_risk_level (Some "high") false default_config = inr (Some HIGH) /\
  cli_min_risk_level (Some "critical") false default_config = inl 2%nat.
Proof.
  destruct (cli_min_risk_level_resolution "high" false default_config) as [H1 _].
  destruct (cli_min_risk_level_resolution "critical" false default_config) as [_ [H2 _]].
  split; [apply (H1 eq_refl HIGH); reflexivity|apply (H2 eq_refl); simpl; intuition discriminate].
Defined.

Lemma List_filter_true {A} (l : list A) : List.filter (fun _ => true) l = l.
Proof. induction l as [|x l IH]; simpl; [reflexivity|]. rewrite IH. reflexivity. Qed.

Lemma List_filter_filter {A} (p q : A -> bool) (l : list A) :
  List.filter p (List.filter q l) = List.filter (fun x => q x && p x) l.
Proof.
  induction l as [|x l IH]; simpl; [reflexivity|].
  destruct (q x); simpl; [destruct (p x); simpl; rewrite IH; reflexivity|exact IH].
Qed.

Lemma risk_ge_order (a b : Risk) : risk_ge a b = (risk_order a <=? risk_order b)%nat.
Proof. destruct a, b; reflexivity. Qed.

Lemma cli_filter_findings_filter (use_diff_mode baseline_exists : bool) (baseline : Baseline)
    (min_risk_level : option Risk) (exclude_vendors : list string) (fs : list Finding) :
  cli_filter_findings use_diff_mode baseline_exists baseline min_risk_level exclude_vendors fs =
  List.filter (fun f =>
      (negb (use_diff_mode && baseline_exists) || is_new_or_changed baseline f) &&
      match min_risk_level with
      | Some m => (risk_order (f_risk f) <=? risk_order m)%nat
      | None => true
      end &&
      negb (str_in (evidence_get "codesign_team_id" (f_evidence f) "") exclude_vendors) &&
      negb (str_in (evidence_get "spctl_team_id" (f_evidence f) "") exclude_vendors)) fs.
Proof.
  unfold cli_filter_findings, exclude_vendor_filter. cbv zeta.
  assert (E1 : (if use_diff_mode && baseline_exists then filter_new_findings baseline fs else fs) =
               List.filter (fun f => negb (use_diff_mode && baseline_exists) ||
                                     is_new_or_changed baseline f) fs).
  { destruct (use_diff_mode && baseline_exists); simpl;
      [apply filter_new_findings_filter|symmetry; apply List_filter_true]. }
  rewrite E1.
  destruct min_risk_level as [m|];
    [rewrite (List.filter_ext (fun f => risk_ge (f_risk f) m)
                (fun f => (risk_order (f_risk f) <=? risk_order m)%nat))
       by (intros f; apply risk_ge_order)|].
  all: destruct exclude_vendors as [|v vs].
  all: rewrite ?List_filter_filter; apply List.filter_ext; intros f; cbn [str_in existsb negb];
    rewrite ?andb_true_r, ?andb_assoc;
  reflexivity.
Qed.

(** X: the three presentation filters of [scan] (diff against the baseline,
    severity threshold, excluded vendors) compose into one filter of the
    report's findings: a finding is shown, in its original order, exactly
    when it is new or changed (when the diff applies), at least as severe as
    the threshold (when there is one), and its [codesign_team_id] and
    [spctl_team_id] evidence (empty when missing) are not excluded. *)
Theorem cli_filter_findings_compose (use_diff_mode baseline_exists : bool) (baseline : Baseline)
    (min_risk_level : option Risk) (exclude_vendors : list string) (fs : list Finding) :
  cli_filter_findings use_diff_mode baseline_exists baseline min_risk_level exclude_vendors fs =
  List.filter (fun f =>
      (negb (use_diff_mode && baseline_exists) || is_new_or_changed baseline f) &&
      match min_risk_level with
      | Some m => (risk_order (f_risk f) <=? risk_order m)%nat
      | None => true
      end &&
      negb (str_in (evidence_get "codesign_team_id" (f_evidence f) "") exclude_vendors) &&
      negb (str_in (evidence_get "spctl_team_id" (f_evidence f) "") exclude_vendors)) fs.
Proof. apply cli_filter_findings_filter. Qed.

Lemma save_then_filter_empty (report : ScanReport) :
  (forall f g, In f (findings report) -> In g (findings report) ->
     f_id f = f_id g -> f_risk f = f_risk g) ->
  List.filter (is_new_or_changed (baseline_findings_of report)) (findings report) = [].
Proof.
  intros Huniq. apply filter_none. intros f Hin.
  apply not_true_iff_false. rewrite is_new_or_changed_spec. unfold baseline_findings_of.
  destruct (save_fold_present report (findings report) ∅ f Hin) as [e He].
  rewrite He. intros [Hn|(e' & He' & Hne)]; [discriminate|].
  injection He' as <-.
  destruct (save_fold_lookup report (findings report) ∅ (f_id f) e He)
    as [(g & Hg & Hk & ->)|Hm]; [|rewrite lookup_empty in Hm; discriminate].
  apply Hne. simpl. rewrite (Huniq g f Hg Hin Hk). reflexivity.
Qed.

(** With the diff off, the filters do not look at the baseline. *)
Lemma cli_filter_findings_nodiff b (baseline : Baseline) lvl ex fs :
  cli_filter_findings false b baseline lvl ex fs = cli_filter_findings false false ∅ lvl ex fs.
Proof. reflexivity. Qed.

(** X: how [scan] uses the baseline.  A failed scan exits with code 3, and
    so does a [--save-baseline] whose save raises; a [--save-baseline] that
    saves, without [--json] or [--sarif], exits with 0; with [--show-all],
    or with a baseline file that does not load, whatever [scan] renders is
    the report filtered without diff, whatever [--diff] and
    [--save-baseline] say; a baseline file that loads turns the diff on even
    without [--diff]; and [--save-baseline --json] over an existing
    baseline diffs the report against the baseline it has just saved, so it
    renders no finding when findings sharing an id share their severity. *)
Theorem cli_scan_baseline_modes (file : BaselineFile) (diff_mode show_all save_baseline json sarif : bool)
    (lvl : option Risk) (config : Config) (created_at : string) (err : ScanError)
    (report : ScanReport) (save_failure : option BaselineFile) (file' : BaselineFile) :
  cli_scan file diff_mode show_all save_baseline json sarif lvl config created_at (inl err) save_failure =
    (file, Exit 3) /\
  cli_scan file diff_mode show_all true json sarif lvl config created_at (inr report) (Some file') =
    (file', Exit 3) /\
  cli_scan file diff_mode show_all true false false lvl config created_at (inr report) None =
    (fst (baseline_save created_at report), Exit 0) /\
  (forall fs, snd (cli_scan file diff_mode true save_baseline json sarif lvl config created_at
                     (inr report) save_failure) = Render fs ->
     fs = cli_filter_findings false false ∅ lvl (exclude_vendors config) (findings report)) /\
  (fst (baseline_load file ∅) = false ->
   forall fs, snd (cli_scan file diff_mode show_all save_baseline json sarif lvl config created_at
                     (inr report) save_failure) = Render fs ->
     fs = cli_filter_findings false false ∅ lvl (exclude_vendors config) (findings report)) /\
  (forall data, file = Stored data ->
   cli_scan file diff_mode false false json sarif lvl config created_at (inr report) save_failure =
    (file, Render (cli_filter_findings true true (bd_findings data) lvl (exclude_vendors config)
                     (findings report)))) /\
  ((forall f g, In f (findings report) -> In g (findings report) ->
      f_id f = f_id g -> f_risk f = f_risk g) ->
   forall data, file = Stored data ->
   cli_scan file diff_mode false true true sarif lvl config created_at (inr report) None =
    (fst (baseline_save created_at report), Render [])).
Proof.
  split; [|split; [|split; [|split; [|split; [|split]]]]].
  - destruct file; reflexivity.
  - destruct file; reflexivity.
  - destruct file; reflexivity.
  - intros fs H. unfold cli_scan in H.
    destruct (baseline_load file ∅) as [be bl].
    rewrite andb_false_r in H.
    destruct save_baseline; [destruct save_failure as [sf|]|]; cbn [andb negb] in H;
      [discriminate H| |].
    + destruct (baseline_save created_at report) as [nf nb].
      destruct json, sarif; cbn [andb negb snd] in H; try discriminate H;
        injection H as <-; apply cli_filter_findings_nodiff.
    + injection H as <-; apply cli_filter_findings_nodiff.
  - intros Hl fs H. unfold cli_scan in H.
    destruct (baseline_load file ∅) as [be bl]. cbn [fst] in Hl. subst be.
    destruct save_baseline; [destruct save_failure as [sf|]|]; cbn [andb negb] in H;
      [discriminate H| |].
    + destruct (baseline_save created_at report) as [nf nb].
      destruct json, sarif; cbn [andb negb snd] in H; try discriminate H;
        injection H as <-; rewrite orb_false_r; destruct diff_mode, show_all; reflexivity.
    + injection H as <-; rewrite orb_false_r; destruct diff_mode, show_all; reflexivity.
  - intros data ->. destruct diff_mode; reflexivity.
  - intros Huniq data ->. unfold cli_scan. simpl. f_equal. f_equal.
    rewrite cli_filter_findings_filter.
    rewrite (List.filter_ext _ (fun f => is_new_or_changed (baseline_findings_of report) f &&
      ((match lvl with Some m => (risk_order (f_risk f) <=? risk_order m)%nat | None => true end &&
        negb (str_in (evidence_get "codesign_team_id" (f_evidence f) "") (exclude_vendors config))) &&
       negb (str_in (evidence_get "spctl_team_id" (f_evidence f) "") (exclude_vendors config)))))
      by (intros f; rewrite orb_true_r; cbn [andb negb orb]; rewrite !andb_assoc; reflexivity).
    rewrite <- List_filter_filter, save_then_filter_empty by exact Huniq. reflexivity.
Qed.

Lemma cli_scan_baseline_modes_witness :
  cli_scan (Stored {| bd_created_at := "2026-01-01T00:00:00+00:00"; bd_host := host_info0;
                      bd_findings := ∅ |})
    false false true true false (Some MED) default_config "2026-01-02T00:00:00+00:00"
    (inr (report_of [mk_finding "t1" HIGH; mk_finding "t2" MED])) None =
  (fst (baseline_save "2026-01-02T00:00:00+00:00" (report_of [mk_finding "t1" HIGH; mk_finding "t2" MED])),
   Render []).
Proof.
  destruct (cli_scan_baseline_modes
    (Stored {| bd_created_at := "2026-01-01T00:00:00+00:00"; bd_host := host_info0; bd_findings := ∅ |})
    false false true true false (Some MED) default_config "2026-01-02T00:00:00+00:00" (RuntimeError "")
    (report_of [mk_finding "t1" HIGH; mk_finding "t2" MED]) None NoFile) as (_ & _ & _ & _ & _ & _ & H).
  refine (H _ _ eq_refl). simpl.
  intros f g [<-|[<-|[]]] [<-|[<-|[]]]; simpl; intros E; try reflexivity; discriminate.
Defined.

(** X: a run with the default configuration and no [--min-risk] or
    [--verbose], when no baseline file loads and no baseline is saved,
    renders exactly the HIGH and MED findings of the report, in the report's
    order, whether or not [--diff] or [--show-all] is given. *)
Theorem cli_scan_default_run (file : BaselineFile) (diff_mode show_all json sarif : bool)
    (created_at : string) (report : ScanReport) (save_failure : option BaselineFile) :
  fst (baseline_load file ∅) = false ->
  exists lvl, cli_min_risk_level None false default_config = inr lvl /\
  cli_scan file diff_mode show_all false json sarif lvl default_config created_at (inr report)
    save_failure =
    (file, Render (List.filter (fun f => match f_risk f with HIGH | MED => true | LOW | INFO => false end)
                     (findings report))).
Proof.
  intros Hl. exists (Some MED). split; [reflexivity|].
  assert (E : cli_scan file diff_mode show_all false json sarif (Some MED) default_config created_at
                (inr report) save_failure =
              (file, Render (cli_filter_findings false false ∅ (Some MED) [] (findings report)))).
  { destruct file; simpl in Hl; [| |discriminate Hl]; destruct diff_mode, show_all; reflexivity. }
  rewrite E, cli_filter_findings_filter. do 2 f_equal.
  apply List.filter_ext. intros f. destruct (f_risk f); reflexivity.
Qed.

Lemma cli_scan_default_run_witness :
  exists lvl, cli_min_risk_level None false default_config = inr lvl /\
  cli_scan NoFile true false false true false lvl default_config "2026-01-02T00:00:00+00:00"
    (inr (report_of [mk_finding "t1" LOW; mk_finding "t2" HIGH; mk_finding "t3" INFO])) None =
    (NoFile, Render [mk_finding "t2" HIGH]).
Proof.
  destruct (cli_scan_default_run NoFile true false true false "2026-01-02T00:00:00+00:00"
              (report_of [mk_finding "t1" LOW; mk_finding "t2" HIGH; mk_finding "t3" INFO]) None eq_refl)
    as [lvl [H1 H2]].
  exists lvl. split; [exact H1|]. rewrite H2. reflexivity.
Defined.

(** ** output/sarif.py *)

Lemma replace_char_free (a b : ascii) (s : string) :
  b <> a -> char_free a (replace_char a b s) = true.
Proof.
  intros Hba. induction s as [|c s IH]; [reflexivity|]. simpl. rewrite IH, andb_true_r.
  destruct (Ascii.eqb c a) eqn:E.
  - apply negb_true_iff, Ascii.eqb_neq. exact Hba.
  - rewrite E. reflexivity.
Qed.

Lemma replace_char_keeps_free (a b d : ascii) (s : string) :
  b <> d -> char_free d s = true -> char_free d (replace_char a b s) = true.
Proof.
  intros Hbd. induction s as [|c s IH]; intros Hf; [reflexivity|].
  simpl in *. apply andb_prop in Hf as [Hc Hf]. rewrite (IH Hf), andb_true_r.
  destruct (Ascii.eqb c a); [apply negb_true_iff, Ascii.eqb_neq; exact Hbd|exact Hc].
Qed.

Lemma replace_char_length (a b : ascii) (s : string) :
  String.length (replace_char a b s) = String.length s.
Proof. induction s as [|c s IH]; simpl; [reflexivity|]. rewrite IH. reflexivity. Qed.

Lemma replace_char_absent (a b : ascii) (s : string) :
  char_free a s = true -> replace_char a b s = s.
Proof.
  induction s as [|c s IH]; intros Hf; [reflexivity|].
  simpl in *. apply andb_prop in Hf as [Hc Hf]. apply negb_true_iff in Hc.
  rewrite Hc, (IH Hf). reflexivity.
Qed.

(** X: [_sanitize_rule_name] leaves no [':'] and no ['_'] in a SARIF rule
    name, keeps the length of the rule id, and returns an id that has
    neither character unchanged. *)
Theorem sanitize_rule_name_spec (rule_id : string) :
  char_free ":" (_sanitize_rule_name rule_id) = true /\
  char_free "_" (_sanitize_rule_name rule_id) = true /\
  String.length (_sanitize_rule_name rule_id) = String.length rule_id /\
  (char_free ":" rule_id = true -> char_free "_" rule_id = true -> _sanitize_rule_name rule_id = rule_id).
Proof.
  unfold _sanitize_rule_name. split; [|split; [|split]].
  - apply replace_char_keeps_free; [discriminate|]. apply replace_char_free. discriminate.
  - apply replace_char_free. discriminate.
  - rewrite !replace_char_length. reflexivity.
  - intros H1 H2. rewrite (replace_char_absent _ _ _ H1), (replace_char_absent _ _ _ H2). reflexivity.
Qed.

Lemma sanitize_rule_name_spec_witness :
  _sanitize_rule_name "launchd-daemon-net.example.helper" = "launchd-daemon-net.example.helper".
Proof.
  apply (sanitize_rule_name_spec "launchd-daemon-net.example.helper"); reflexivity.
Defined.

Definition dedupe_step (rules_map : list (string * Finding)) (finding : Finding) : list (string * Finding) :=
  if existsb (fun kv => String.eqb (fst kv) (f_id finding)) rules_map
  then rules_map
  else (rules_map ++ [(f_id finding, finding)])%list.

Lemma dedupe_key_present (rules_map : list (string * Finding)) (k : string) :
  existsb (fun kv => String.eqb (fst kv) k) rules_map = true <-> In k (map fst rules_map).
Proof.
  rewrite existsb_exists, in_map_iff. split.
  - intros (kv & Hin & E). apply String.eqb_eq in E. exists kv. split; assumption.
  - intros (kv & E & Hin). exists kv. split; [exact Hin|]. apply String.eqb_eq. exact E.
Qed.

Lemma dedupe_fold_keys (l : list Finding) (acc : list (string * Finding)) (k : string) :
  In k (map fst (fold_left dedupe_step l acc)) <-> In k (map fst acc) \/ In k (map f_id l).
Proof.
  revert acc. induction l as [|f l IH]; intros acc; simpl; [tauto|].
  rewrite IH. unfold dedupe_step.
  destruct (existsb _ acc) eqn:E.
  - apply dedupe_key_present in E. split; [tauto|].
    intros [H|[<-|H]]; tauto.
  - rewrite map_app, in_app_iff. simpl. split; intros; intuition.
Qed.

Lemma dedupe_fold_nodup (l : list Finding) (acc : list (string * Finding)) :
  NoDup (map fst acc) -> NoDup (map fst (fold_left dedupe_step l acc)).
Proof.
  revert acc. induction l as [|f l IH]; intros acc Hnd; simpl; [exact Hnd|].
  apply IH. unfold dedupe_step. destruct (existsb _ acc) eqn:E; [exact Hnd|].
  rewrite map_app. simpl. apply NoDup_app. split; [exact Hnd|]. split; [|apply NoDup_singleton].
  intros x Hx Hy. apply list_elem_of_singleton in Hy. subst x.
  apply list_elem_of_In, dedupe_key_present in Hx. congruence.
Qed.

Lemma dedupe_fold_source (l : list Finding) (acc : list (string * Finding)) kv :
  In kv (fold_left dedupe_step l acc) ->
  In kv acc \/
  (~ In (fst kv) (map fst acc) /\ fst kv = f_id (snd kv) /\
   find (fun f => String.eqb (f_id f) (fst kv)) l = Some (snd kv)).
Proof.
  revert acc. induction l as [|f l IH]; intros acc Hin; simpl in Hin; [left; exact Hin|].
  destruct (IH _ Hin) as [Hs|(Hn & Hk & Hf)]; unfold dedupe_step in *;
    destruct (existsb _ acc) eqn:E.
  - left. exact Hs.
  - apply in_app_iff in Hs as [Hs|Hs]; [left; exact Hs|]. destruct Hs as [<-|[]].
    right. simpl. split; [intros Hi; apply dedupe_key_present in Hi; congruence|].
    split; [reflexivity|]. rewrite String.eqb_refl. reflexivity.
  - right. split; [exact Hn|]. split; [exact Hk|]. simpl.
    apply dedupe_key_present in E.
    destruct (String.eqb (f_id f) (fst kv)) eqn:Ef; [apply String.eqb_eq in Ef; congruence|exact Hf].
  - right. rewrite map_app, in_app_iff in Hn. split; [tauto|]. split; [exact Hk|]. simpl.
    destruct (String.eqb (f_id f) (fst kv)) eqn:Ef; [|exact Hf].
    apply String.eqb_eq in Ef. exfalso. apply Hn. right. left. exact Ef.
Qed.

(** X: [render_sarif] emits one result per finding, in the report's order,
    with the finding's id as [ruleId]; its rules have pairwise distinct ids,
    exactly the ids the findings use, and each rule describes the first
    finding of the report with that id (name from [_sanitize_rule_name],
    short and full description and help from its title, details and
    recommendation). *)
Theorem render_sarif_rules_results (report : ScanReport) :
  map res_ruleId (snd (render_sarif report)) = map f_id (findings report) /\
  NoDup (map rule_id (fst (render_sarif report))) /\
  (forall k, In k (map rule_id (fst (render_sarif report))) <-> In k (map f_id (findings report))) /\
  (forall rule, In rule (fst (render_sarif report)) ->
     exists f, find (fun g => String.eqb (f_id g) (rule_id rule)) (findings report) = Some f /\
       rule_id rule = f_id f /\ rule_name rule = _sanitize_rule_name (f_id f) /\
       rule_short rule = f_title f /\ rule_full rule = f_details f /\
       rule_help rule = f_recommendation f).
Proof.
  unfold render_sarif. cbn [fst snd].
  change (_dedupe_rules (findings report)) with (fold_left dedupe_step (findings report) []).
  rewrite !map_map. cbn [rule_id res_ruleId].
  split; [reflexivity|]. split; [|split].
  - apply dedupe_fold_nodup. constructor.
  - intros k. rewrite dedupe_fold_keys. simpl. tauto.
  - intros rule Hin. apply in_map_iff in Hin as (kv & <- & Hkv).
    destruct (dedupe_fold_source _ _ _ Hkv) as [[]|(_ & Hk & Hf)].
    exists (snd kv). cbn [rule_id rule_name rule_short rule_full rule_help].
    split; [exact Hf|]. rewrite Hk. repeat split; reflexivity.
Qed.

(** ** engine.py *)

Lemma analyze_app_noent_shape h app cs sp q cfg f :
  In f (analyze_app h app cs sp q None cfg) ->
  f_category f = "app" /\
  exists rule, In rule ["codesign_fail"; "spctl_rejected"; "quarantined"; "verified"] /\
    f_id f = "app:" ++ py_or (a_bundle_id app) (default "unknown" (a_name app)) ++ ":" ++ rule.
Proof.
  intros H. unfold analyze_app in H. cbv beta iota zeta in H.
  rewrite !app_nil_r in H.
  split_rules H; close_shape.
Qed.

Lemma launchd_id_rules (item : Artifact) cs sp q cfg f :
  In f (analyze_launchd item cs sp q cfg) ->
  f_category f = "persistence" /\
  exists rule, In rule ["codesign_fail"; "spctl_rejected"; "user_writable"; "quarantined"; "quarantined_only"] /\
    f_id f = ("persistence:" ++ default "unknown" (a_scope item) ++ ":" ++
              default "unknown" (a_label item)) ++ ":" ++ rule.
Proof.
  intros H. destruct (analyze_launchd_shape _ _ _ _ _ _ H) as [Hc Hid]. split; [exact Hc|].
  destruct Hid as [E|[E|[(E & _)|[E|E]]]]; rewrite E;
    [exists "codesign_fail"|exists "spctl_rejected"|exists "user_writable"|exists "quarantined"
    |exists "quarantined_only"]; (split; [simpl; tauto|reflexivity]).
Qed.

(** X: a sequential [run_scan] with the host information available returns
    a report for that host, stamped [now ++ "Z"], whose findings are sorted
    by [sorted_by_key]; every finding comes from one of the scanned apps or
    launchd items, and app findings are only signature, Gatekeeper,
    quarantine or verified findings: the engine passes no entitlements to
    [analyze_app] and analyses no browser extension, so no entitlement or
    extension finding is ever reported. *)
Theorem run_scan_report_contents re h coll hi apps items now cfg :
  exists r, run_scan re h coll (Some hi) apps items now cfg = inr r /\
    host r = hi /\ timestamp r = now ++ "Z" /\
    Sorted severity_then_title (findings r) /\
    forall f, In f (findings r) ->
      (f_category f = "app" /\
       exists app rule, In app (default [] apps) /\
         In rule ["codesign_fail"; "spctl_rejected"; "quarantined"; "verified"] /\
         f_id f = "app:" ++ py_or (a_bundle_id app) (default "unknown" (a_name app)) ++ ":" ++ rule) \/
      (f_category f = "persistence" /\
       exists item rule, In item (default [] items) /\
         In rule ["codesign_fail"; "spctl_rejected"; "user_writable"; "quarantined"; "quarantined_only"] /\
         f_id f = ("persistence:" ++ default "unknown" (a_scope item) ++ ":" ++
                   default "unknown" (a_label item)) ++ ":" ++ rule).
Proof.
  eexists. split; [reflexivity|]. cbn [host timestamp findings].
  split; [reflexivity|]. split; [reflexivity|].
  match goal with |- Sorted _ (sorted_by_key ?X) /\ _ =>
    destruct (sorted_by_key_spec X) as [Hperm Hsort] end.
  split; [exact Hsort|]. intros f Hin.
  apply (Permutation_in _ Hperm) in Hin.
  assert (Hin' : In f (_scan_and_analyze_apps h coll apps cfg ++ _scan_and_analyze_launchd h coll items cfg)%list).
  { destruct cfg as [c|]; [|exact Hin].
    rewrite apply_config_filters_filter in Hin. apply filter_In in Hin as [Hin _]. exact Hin. }
  clear Hin Hperm Hsort. apply in_app_or in Hin' as [Ha|Hl].
  - left. unfold _scan_and_analyze_apps, _analyze_apps_sequential in Ha.
    destruct apps as [[|a l]|]; [destruct Ha| |destruct Ha].
    apply in_flat_map in Ha as (app & Happ & Hf).
    unfold _analyze_single_app in Hf. destruct (negb _); [destruct Hf|].
    destruct (analyze_app_noent_shape _ _ _ _ _ _ _ Hf) as [Hc (rule & Hr & Hid)].
    split; [exact Hc|]. exists app, rule. auto.
  - right. unfold _scan_and_analyze_launchd, _analyze_launchd_sequential in Hl.
    destruct items as [[|a l]|]; [destruct Hl| |destruct Hl].
    apply in_flat_map in Hl as (item & Hitem & Hf).
    unfold _analyze_single_launchd in Hf.
    assert (Hf' : exists cs sp q, In f (analyze_launchd item cs sp q cfg))
      by (destruct (negb _); [|destruct (negb _)]; eauto).
    destruct Hf' as (cs & sp & q & Hf').
    destruct (launchd_id_rules _ _ _ _ _ _ Hf') as [Hc (rule & Hr & Hid)].
    split; [exact Hc|]. exists item, rule. auto.
Qed.

Lemma user_writable_empty : is_user_writable_path "" = false.
Proof. reflexivity. Qed.

(** X: [_analyze_single_launchd] runs no collector for a launchd item whose
    program is empty or missing on disk: such an item yields at most the
    user-writable-daemon finding (and nothing at all when the program is
    empty), never a signature, Gatekeeper or quarantine finding. *)
Theorem analyze_single_launchd_without_program h coll item cfg :
  (str_truthy (default "" (a_program item)) = false ->
     _analyze_single_launchd h coll item cfg = []) /\
  (h_exists h (default "" (a_program item)) = false ->
     _analyze_single_launchd h coll item cfg =
       if String.eqb (default "unknown" (a_scope item)) "daemon" &&
          is_user_writable_path (default "" (a_program item))
       then [_create_user_writable_daemon_finding item
               (("persistence:" ++ default "unknown" (a_scope item) ++ ":" ++
                 default "unknown" (a_label item)) ++ ":user_writable")]
       else []).
Proof.
  unfold _analyze_single_launchd. split.
  - intros Ht. rewrite Ht. simpl negb. cbv iota.
    unfold analyze_launchd. cbv zeta. cbn iota.
    unfold is_user_writable_path at 1. rewrite Ht. rewrite andb_false_r. reflexivity.
  - intros He. rewrite He. simpl negb.
    destruct (str_truthy _); simpl negb; cbv iota;
      unfold analyze_launchd; cbv zeta; cbn iota; cbn [app]; rewrite app_nil_r; reflexivity.
Qed.

Lemma analyze_single_launchd_without_program_witness :
  _analyze_single_launchd host0 coll0
    {| a_name := None; a_bundle_id := None; a_exec_path := None; a_app_path := None;
       a_label := Some "com.example.updater"; a_program := Some "/tmp/updater";
       a_plist_path := Some "/Library/LaunchDaemons/com.example.updater.plist";
       a_scope := Some "daemon"; a_run_at_load := Some true |} None <> [].
Proof.
  rewrite (proj2 (analyze_single_launchd_without_program host0 coll0
    {| a_name := None; a_bundle_id := None; a_exec_path := None; a_app_path := None;
       a_label := Some "com.example.updater"; a_program := Some "/tmp/updater";
       a_plist_path := Some "/Library/LaunchDaemons/com.example.updater.plist";
       a_scope := Some "daemon"; a_run_at_load := Some true |} None) eq_refl).
  vm_compute. discriminate.
Defined.

(** ** rules.py *)

Lemma opt_eqb_true (o : option string) (s : string) : opt_eqb o s = true -> o = Some s.
Proof. destruct o as [x|]; simpl; [intros E; apply String.eqb_eq in E; subst; reflexivity|discriminate]. Qed.

(** Two ids of one app built from different rule names differ. *)
Ltac other_app_rule Hid :=
  cbn [f_id _create_codesign_fail_finding _create_spctl_rejected_finding
       _create_quarantined_app_finding _create_verified_app_finding
       _create_high_risk_entitlements_finding _create_sensitive_entitlements_finding] in Hid;
  apply append_cancel_l, append_cancel_l in Hid; discriminate Hid.

Lemma analyze_app_cases h app cs sp q ent cfg f :
  In f (analyze_app h app cs sp q ent cfg) ->
  let id rule := "app:" ++ py_or (a_bundle_id app) (default "unknown" (a_name app)) ++ rule in
  let path := app_path_of app in
  let known := known_vendor_of cfg (team_id_of cs) in
  (f_id f = id ":codesign_fail" -> exists c, cs = Some c /\ cs_status c = Some "fail") /\
  (f_id f = id ":spctl_rejected" ->
     (exists s, sp = Some s /\ sp_status s = Some "rejected") /\
     f_risk f = if (str_truthy path && ctx_is_app_store (AppContext_init h path)) ||
                   (is_signed_of cs && known) then MED else HIGH) /\
  (f_id f = id ":quarantined" -> f_risk f = LOW /\
     exists qr, q = Some qr /\ q_is_quarantined qr = Some "true" /\
       homebrew_trusted cfg (default "" (q_value qr)) = false) /\
  (f_id f = id ":verified" -> f_risk f = INFO /\
     exists c s, cs = Some c /\ cs_status c = Some "ok" /\ sp = Some s /\
       sp_status s = Some "accepted" /\ known = true) /\
  (f_id f = id ":high_risk_entitlements" -> f_risk f = if is_signed_of cs then MED else HIGH) /\
  (f_id f = id ":sensitive_entitlements" -> f_risk f = INFO).
Proof.
  intros H id path known. subst id path known.
  unfold analyze_app in H. cbv zeta in H.
  split_rules H;
    repeat match goal with |- _ /\ _ => split end;
    intros Hid; try (exfalso; other_app_rule Hid);
    cbn [f_risk _create_codesign_fail_finding _create_spctl_rejected_finding
         _create_quarantined_app_finding _create_verified_app_finding
         _create_high_risk_entitlements_finding _create_sensitive_entitlements_finding];
    repeat match goal with |- _ /\ _ => split end;
    repeat match goal with
           | E : is_signed_of (Some _) = true |- _ => cbn [is_signed_of] in E
           | E : opt_eqb _ _ = true |- _ => apply opt_eqb_true in E
           | E : _ && _ = true |- _ => apply andb_prop in E as [? ?]
           end;
    eauto 10.
  all: try (unfold is_signed_of, team_id_of;
            destruct (str_truthy (app_path_of app)); cbn iota;
            destruct (ctx_is_app_store _); cbn [andb orb]; try reflexivity;
            destruct (opt_eqb _ "ok"); cbn [andb orb]; try reflexivity;
            destruct (known_vendor_of _ _); reflexivity).
  all: destruct (is_signed_of cs), (known_vendor_of cfg (team_id_of cs)); reflexivity.
Qed.

(** X: what each finding of [analyze_app] says about its inputs.  A
    codesign-fail finding needs the status ["fail"]; a Gatekeeper finding
    needs the status ["rejected"] and is MED exactly for an App Store app or
    a signed app of a known vendor, HIGH otherwise; a quarantine finding is
    LOW and needs the attribute and no Homebrew trust; a verified finding
    is INFO and needs a signature ["ok"], Gatekeeper ["accepted"] and a
    known vendor; a high-risk-entitlements finding is MED for any signed app,
    whatever its vendor, and HIGH for an unsigned one; a
    sensitive-entitlements finding is INFO. *)
Theorem analyze_app_rule_risks h app cs sp q ent cfg f :
  In f (analyze_app h app cs sp q ent cfg) ->
  let id rule := "app:" ++ py_or (a_bundle_id app) (default "unknown" (a_name app)) ++ rule in
  let path := app_path_of app in
  let known := known_vendor_of cfg (team_id_of cs) in
  (f_id f = id ":codesign_fail" -> exists c, cs = Some c /\ cs_status c = Some "fail") /\
  (f_id f = id ":spctl_rejected" ->
     (exists s, sp = Some s /\ sp_status s = Some "rejected") /\
     f_risk f = if (str_truthy path && ctx_is_app_store (AppContext_init h path)) ||
                   (is_signed_of cs && known) then MED else HIGH) /\
  (f_id f = id ":quarantined" -> f_risk f = LOW /\
     exists qr, q = Some qr /\ q_is_quarantined qr = Some "true" /\
       homebrew_trusted cfg (default "" (q_value qr)) = false) /\
  (f_id f = id ":verified" -> f_risk f = INFO /\
     exists c s, cs = Some c /\ cs_status c = Some "ok" /\ sp = Some s /\
       sp_status s = Some "accepted" /\ known = true) /\
  (f_id f = id ":high_risk_entitlements" -> f_risk f = if is_signed_of cs then MED else HIGH) /\
  (f_id f = id ":sensitive_entitlements" -> f_risk f = INFO).
Proof. apply analyze_app_cases. Qed.

(** X: [analyze_app] never reports an app as verified together with a
    signature failure or a Gatekeeper rejection of the same app. *)
Theorem analyze_app_verified_exclusive h app cs sp q ent cfg f g :
  In f (analyze_app h app cs sp q ent cfg) -> In g (analyze_app h app cs sp q ent cfg) ->
  let id rule := "app:" ++ py_or (a_bundle_id app) (default "unknown" (a_name app)) ++ rule in
  f_id f = id ":verified" ->
  f_id g <> id ":codesign_fail" /\ f_id g <> id ":spctl_rejected".
Proof.
  intros Hf Hg id Hid. subst id.
  destruct (analyze_app_cases _ _ _ _ _ _ _ _ Hf) as (_ & _ & _ & Hv & _).
  destruct (Hv Hid) as (_ & c & s & -> & Hc & -> & Hs & _).
  destruct (analyze_app_cases _ _ _ _ _ _ _ _ Hg) as (Hcf & Hsr & _).
  split; intros Hgid.
  - destruct (Hcf Hgid) as (c' & E & Hc'). injection E as <-. congruence.
  - destruct (Hsr Hgid) as [(s' & E & Hs') _]. injection E as <-. congruence.
Qed.

Definition sp_rejected : SpctlRes := {| sp_status := Some "rejected"; sp_source := None; sp_raw := Some "" |}.

Lemma analyze_app_rule_risks_witness :
  exists f, In f (analyze_app host0 app_A None (Some sp_rejected) None None None) /\ f_risk f = HIGH.
Proof.
  assert (Hin : In (_create_spctl_rejected_finding app_A sp_rejected "app:com.example.a:spctl_rejected"
                      "app" HIGH "")
                   (analyze_app host0 app_A None (Some sp_rejected) None None None))
    by (vm_compute; left; reflexivity).
  eexists. split; [exact Hin|].
  destruct (analyze_app_rule_risks host0 app_A None (Some sp_rejected) None None None _ Hin)
    as (_ & Hsp & _).
  destruct (Hsp eq_refl) as [_ Hr]. rewrite Hr. vm_compute. reflexivity.
Defined.

Definition cs_ok_microsoft : CodesignRes :=
  {| cs_status := Some "ok"; cs_team_id := Some "UBF8T346G9"; cs_raw := Some "" |}.

Definition sp_accepted : SpctlRes :=
  {| sp_status := Some "accepted"; sp_source := Some "Notarized Developer ID"; sp_raw := Some "" |}.

Lemma analyze_app_verified_exclusive_witness :
  In (_create_verified_app_finding app_B cs_ok_microsoft sp_accepted "app:com.microsoft.b:verified"
        "UBF8T346G9")
     (analyze_app host0 app_B (Some cs_ok_microsoft) (Some sp_accepted) None None None) /\
  f_id (_create_verified_app_finding app_B cs_ok_microsoft sp_accepted "app:com.microsoft.b:verified"
          "UBF8T346G9") <> "app:com.microsoft.b:codesign_fail".
Proof.
  assert (Hin : In (_create_verified_app_finding app_B cs_ok_microsoft sp_accepted
                      "app:com.microsoft.b:verified" "UBF8T346G9")
                   (analyze_app host0 app_B (Some cs_ok_microsoft) (Some sp_accepted) None None None))
    by (vm_compute; left; reflexivity).
  split; [exact Hin|].
  exact (proj1 (analyze_app_verified_exclusive host0 app_B (Some cs_ok_microsoft) (Some sp_accepted)
                  None None None _ _ Hin Hin eq_refl)).
Defined.

(** X: the severities of [analyze_launchd]: a codesign-fail finding is MED
    exactly for a known vendor, a Gatekeeper finding MED exactly for a
    signed item of a known vendor (whether or not the program is a system
    helper) and HIGH otherwise, a user-writable-daemon finding is HIGH. *)
Theorem analyze_launchd_rule_risks item cs sp q cfg f :
  In f (analyze_launchd item cs sp q cfg) ->
  let base := "persistence:" ++ default "unknown" (a_scope item) ++ ":" ++
              default "unknown" (a_label item) in
  let known := known_vendor_of cfg (team_id_of cs) in
  (f_id f = base ++ ":codesign_fail" -> f_risk f = if known then MED else HIGH) /\
  (f_id f = base ++ ":spctl_rejected" -> f_risk f = if is_signed_of cs && known then MED else HIGH) /\
  (f_id f = base ++ ":user_writable" -> f_risk f = HIGH).
Proof.
  intros H base known. subst base known.
  unfold analyze_launchd in H. cbv zeta in H.
  split_rules H;
    repeat match goal with |- _ /\ _ => split end;
    intros Hid; try (exfalso; distinct_rule_ids Hid);
    cbn [f_risk _create_codesign_fail_finding _create_spctl_rejected_finding
         _create_user_writable_daemon_finding]; try reflexivity.
  destruct (is_signed_of cs && known_vendor_of cfg (team_id_of cs)), (is_system_helper_path _);
    reflexivity.
Qed.

Lemma analyze_launchd_rule_risks_witness :
  exists f, In f (analyze_launchd bob_daemon None (Some sp_rejected) None None) /\ f_risk f = HIGH.
Proof.
  assert (Hin : In (_create_spctl_rejected_finding bob_daemon sp_rejected
                      "persistence:daemon:com.bob.x:spctl_rejected" "persistence" HIGH "")
                   (analyze_launchd bob_daemon None (Some sp_rejected) None None))
    by (vm_compute; left; reflexivity).
  eexists. split; [exact Hin|].
  destruct (analyze_launchd_rule_risks bob_daemon None (Some sp_rejected) None None _ Hin)
    as (_ & Hsp & _).
  rewrite (Hsp eq_refl). reflexivity.
Defined.

(** ** rules.py: browser extensions *)

Lemma high_risk_in_suspicious (p : string) :
  str_in p HIGH_RISK_PERMISSIONS = true -> exists d, suspicious_lookup p = Some d.
Proof.
  intros H. apply str_in_spec in H.
  destruct H as [<-|[<-|[<-|[<-|[<-|[<-|[]]]]]]]; eexists; reflexivity.
Qed.

Lemma high_risk_as_suspicious (ps : list string) :
  _identify_high_risk_extension_permissions ps =
  _identify_suspicious_extension_permissions (List.filter (fun p => str_in p HIGH_RISK_PERMISSIONS) ps).
Proof.
  induction ps as [|p ps IH]; [reflexivity|].
  unfold _identify_high_risk_extension_permissions, _identify_suspicious_extension_permissions in *.
  cbn [flat_map List.filter]. rewrite IH. destruct (str_in p HIGH_RISK_PERMISSIONS) eqn:E.
  - destruct (high_risk_in_suspicious p E) as [d Hd]. rewrite Hd. cbn [flat_map]. rewrite Hd. reflexivity.
  - reflexivity.
Qed.

Lemma high_risk_nonempty (ps : list string) :
  _identify_high_risk_extension_permissions ps <> [] <-> exists p, In p ps /\ In p HIGH_RISK_PERMISSIONS.
Proof.
  induction ps as [|p ps IH].
  - simpl. split; [congruence|]. intros (p & [] & _).
  - unfold _identify_high_risk_extension_permissions in *. cbn [flat_map].
    destruct (str_in p HIGH_RISK_PERMISSIONS) eqn:E.
    + split; [intros _; exists p; split; [left; reflexivity|apply str_in_spec; exact E]|].
      intros _. destruct (suspicious_lookup p); discriminate.
    + simpl. rewrite IH. split.
      * intros (x & Hx & Hh). exists x. split; [right; exact Hx|exact Hh].
      * intros (x & [<-|Hx] & Hh); [|exists x; split; assumption].
        assert (Hs : str_in p HIGH_RISK_PERMISSIONS = true) by (apply str_in_spec; exact Hh).
        congruence.
Qed.

(** X: [analyze_browser_extension] reports nothing for an extension without
    permissions or host permissions; it reports a HIGH finding exactly when
    one of the permissions is in [HIGH_RISK_PERMISSIONS], listing each such
    permission with its description from [SUSPICIOUS_PERMISSIONS]; and it
    reports the INFO finding exactly when the extension has some permission
    or host permission. *)
Theorem analyze_browser_extension_rules ext cfg :
  (default [] (e_permissions ext) = [] -> default [] (e_host_permissions ext) = [] ->
     analyze_browser_extension ext cfg = []) /\
  ((exists f, In f (analyze_browser_extension ext cfg) /\ f_risk f = HIGH) <->
     exists p, In p (default [] (e_permissions ext)) /\ In p HIGH_RISK_PERMISSIONS) /\
  _identify_high_risk_extension_permissions (default [] (e_permissions ext)) =
    _identify_suspicious_extension_permissions
      (List.filter (fun p => str_in p HIGH_RISK_PERMISSIONS) (default [] (e_permissions ext))) /\
  ((exists f, In f (analyze_browser_extension ext cfg) /\ f_risk f = INFO) <->
     default [] (e_permissions ext) <> [] \/ default [] (e_host_permissions ext) <> []).
Proof.
  split; [|split; [|split]].
  - intros Hp Hh. unfold analyze_browser_extension. cbv zeta. rewrite Hp, Hh. reflexivity.
  - split.
    + intros (f & Hin & Hr). unfold analyze_browser_extension in Hin. cbv zeta in Hin.
      apply in_app_or in Hin as [Hin|Hin].
      * apply high_risk_nonempty. intros E. rewrite E in Hin. destruct Hin.
      * exfalso. split_rules Hin;
          cbn [f_risk _create_broad_access_extension_finding _create_suspicious_extension_finding
               _create_extension_info_finding] in Hr; discriminate Hr.
    + intros Hex. apply high_risk_nonempty in Hex.
      destruct (_identify_high_risk_extension_permissions (default [] (e_permissions ext)))
        as [|d ds] eqn:E; [congruence|].
      eexists. split; [unfold analyze_browser_extension; cbv zeta; rewrite E; left; reflexivity|].
      reflexivity.
  - apply high_risk_as_suspicious.
  - split.
    + intros (f & Hin & Hr). unfold analyze_browser_extension in Hin. cbv zeta in Hin.
      split_rules Hin;
        cbn [f_risk _create_high_risk_extension_finding _create_broad_access_extension_finding
             _create_suspicious_extension_finding _create_extension_info_finding] in Hr;
        try discriminate Hr; first [left; congruence | right; congruence].
    + intros Hne. unfold analyze_browser_extension. cbv zeta.
      destruct (default [] (e_permissions ext)) as [|p ps] eqn:Ep;
        destruct (default [] (e_host_permissions ext)) as [|x xs] eqn:Eh;
        [destruct Hne; congruence| | |];
        eexists; (split; [apply in_or_app; right; apply in_or_app; right; apply in_or_app; right;
                         left; reflexivity|reflexivity]).
Qed.

Lemma analyze_browser_extension_rules_witness :
  exists f, In f (analyze_browser_extension ext_chrome None) /\ f_risk f = INFO.
Proof.
  apply (analyze_browser_extension_rules ext_chrome None). left. discriminate.
Defined.

(** ** rules.py: kernel and system extensions *)

(** A validation that takes strings as they are and refuses any other
    value. *)
Definition str_only (v : PyVal) : option string :=
  match v with PyStr s => Some s | PyBool _ => None end.

Definition kext_unsigned : Kext := {|
  k_name := Some "Driver"; k_bundle_id := Some "com.example.driver";
  k_path := Some "/Library/Extensions/Driver.kext"; k_type := Some "kext";
  k_location := Some "library"; k_loaded := Some true;
  k_codesign := Some {| kc_status := Some "unsigned"; kc_team_id := None; kc_message := None |} |}.

(** X: [analyze_kext] reports nothing for a kext under the system location
    or whose signature status is neither ["unsigned"] nor ["invalid"]; for
    an unsigned or invalid one outside the system location, when the
    evidence validation keeps strings as they are, it either returns exactly
    one HIGH finding of category ["kext"] (when the [bool] [loaded] flag is
    accepted) or raises the validation error on the key ["loaded"]. *)
Theorem analyze_kext_outcomes (validate : PyVal -> option string) (kx : Kext) (cfg : option Config) :
  (default "library" (k_location kx) = "system" -> analyze_kext validate kx cfg = inr []) /\
  (default "library" (k_location kx) <> "system" ->
   kext_codesign_get kc_status kx "unknown" <> "unsigned" ->
   kext_codesign_get kc_status kx "unknown" <> "invalid" ->
   analyze_kext validate kx cfg = inr []) /\
  (default "library" (k_location kx) <> "system" ->
   (forall s, validate (PyStr s) = Some s) ->
   (kext_codesign_get kc_status kx "unknown" = "unsigned" \/
    kext_codesign_get kc_status kx "unknown" = "invalid") ->
   match validate (PyBool (default false (k_loaded kx))) with
   | None => analyze_kext validate kx cfg = inl (EvidenceNotStr "loaded")
   | Some _ => exists f, analyze_kext validate kx cfg = inr [f] /\
                 f_risk f = HIGH /\ f_category f = "kext"
   end).
Proof.
  unfold analyze_kext. cbv zeta.
  split; [intros Hl; rewrite Hl; reflexivity|].
  split.
  - intros Hl Hu Hi. rewrite (proj2 (String.eqb_neq _ _) Hl), (proj2 (String.eqb_neq _ _) Hu),
      (proj2 (String.eqb_neq _ _) Hi). reflexivity.
  - intros Hl Hstr Hst. rewrite (proj2 (String.eqb_neq _ _) Hl).
    destruct Hst as [Hst|Hst]; rewrite Hst; cbn [String.eqb Ascii.eqb Bool.eqb andb].
    + unfold _create_unsigned_kext_finding, kext_finding. cbv zeta.
      cbn [validate_evidence]. rewrite !Hstr.
      destruct (validate (PyBool _)); [eexists; split; [reflexivity|split; reflexivity]|reflexivity].
    + unfold _create_invalid_kext_finding, kext_finding. cbv zeta.
      cbn [validate_evidence]. rewrite !Hstr.
      destruct (validate (PyBool _)); [eexists; split; [reflexivity|split; reflexivity]|reflexivity].
Qed.

Lemma analyze_kext_outcomes_witness :
  analyze_kext str_only kext_unsigned None = inl (EvidenceNotStr "loaded").
Proof.
  exact (proj2 (proj2 (analyze_kext_outcomes str_only kext_unsigned None))
           ltac:(discriminate) (fun s => eq_refl) (or_introl eq_refl)).
Defined.
